(** * mutt_account.c: accounts, their matcher, the URL bridge, the credential
      resolver and the OAUTHBEARER token builder.

    A shallow embedding of [mutt_account.c].  The translation unit is read as
    it is built: [USE_IMAP], [USE_POP], [USE_SMTP] and [USE_NNTP] are all
    defined (the [else if] chain of [mutt_account_getoauthbearer] only parses
    when they are).  C strings are [string]s (the bytes before the
    terminating NUL), a [char *] that may be [NULL] is an [option string],
    [int] results are [Z], and the [unsigned char] flag set is a [Z] whose
    wrap-around is written out.  Messages are their untranslated text
    ([_()] without a catalogue), and [Username], which start-up always sets,
    is read through [NONULL]. *)

From Stdlib Require Import ZArith List String Ascii Bool Lia DecimalString.
Import ListNotations.

Local Open Scope string_scope.
Local Open Scope Z_scope.

(* ===================================================================== *)
(** ** C strings *)
(* ===================================================================== *)

(** [NONULL(x)]: the string, or the empty string for [NULL]. *)
Definition NONULL (x : option string) : string :=
  match x with
  | Some s => s
  | None => ""
  end.

(** A pointer used as a condition: true when it is not [NULL]. *)
Definition nonnull {A : Type} (x : option A) : bool :=
  match x with
  | Some _ => true
  | None => false
  end.

(** An [int] used as a condition: true when it is not zero. *)
Definition truthy (z : Z) : bool := negb (z =? 0).

(** [s[0]] used as a condition: true when the string is not empty. *)
Definition first_char_set (s : string) : bool :=
  match s with
  | EmptyString => false
  | String _ _ => true
  end.

Definition strlen (s : string) : nat := String.length s.

(** [strcmp]: negative, zero or positive. *)
Definition strcmp (a b : string) : Z :=
  match String.compare a b with
  | Eq => 0
  | Lt => -1
  | Gt => 1
  end.

Definition tolower (c : ascii) : ascii :=
  let n := nat_of_ascii c in
  if (Nat.leb 65 n && Nat.leb n 90)%bool then ascii_of_nat (n + 32) else c.

Fixpoint lowercase (s : string) : string :=
  match s with
  | EmptyString => EmptyString
  | String c r => String (tolower c) (lowercase r)
  end.

(** [mutt_str_strcasecmp]: [strcmp] on the case-folded strings (both hosts
    are arrays, so the [NONULL] of the helper never fires). *)
Definition mutt_str_strcasecmp (a b : string) : Z :=
  strcmp (lowercase a) (lowercase b).

(** Modelled from the spec: [mutt_str_strfcpy(dest, src, dsize)] of
    mutt/string.c, which is not among the sources.  The spec calls the
    account's text fields bounded-length strings that are copied into; the
    copy keeps at most [dsize - 1] bytes of [src] and terminates them.  The
    result is the new content of [dest]. *)
Definition mutt_str_strfcpy (src : string) (dsize : nat) : string :=
  substring 0 (dsize - 1) src.

(** [snprintf(buf, size, ...)] once the format has been expanded to [s]:
    at most [size - 1] bytes are stored. *)
Definition snprintf (size : nat) (s : string) : string :=
  substring 0 (size - 1) s.

(** [%d] of an [int]. *)
Definition fmt_d (z : Z) : string := NilZero.string_of_int (Z.to_int z).

(** The byte [\001]. *)
Definition SOH : string := String (ascii_of_nat 1) EmptyString.

(* ===================================================================== *)
(** ** The account and the URL *)
(* ===================================================================== *)

(** Modelled from the spec: [enum AccountType] of conn/account.h, which is
    not among the sources: the four protocols of the spec's data model and
    the zero value of a cleared account. *)
Inductive AccountType : Type :=
| MUTT_ACCT_TYPE_NONE
| MUTT_ACCT_TYPE_IMAP
| MUTT_ACCT_TYPE_POP
| MUTT_ACCT_TYPE_SMTP
| MUTT_ACCT_TYPE_NNTP.

Definition type_eqb (t1 t2 : AccountType) : bool :=
  match t1, t2 with
  | MUTT_ACCT_TYPE_NONE, MUTT_ACCT_TYPE_NONE
  | MUTT_ACCT_TYPE_IMAP, MUTT_ACCT_TYPE_IMAP
  | MUTT_ACCT_TYPE_POP, MUTT_ACCT_TYPE_POP
  | MUTT_ACCT_TYPE_SMTP, MUTT_ACCT_TYPE_SMTP
  | MUTT_ACCT_TYPE_NNTP, MUTT_ACCT_TYPE_NNTP => true
  | _, _ => false
  end.

(** Modelled from the spec: the flag bits of conn/account.h, which is not
    among the sources: one bit each for PORT, USER, LOGIN, PASS and SSL. *)
Definition MUTT_ACCT_PORT : Z := Z.shiftl 1 0.
Definition MUTT_ACCT_USER : Z := Z.shiftl 1 1.
Definition MUTT_ACCT_LOGIN : Z := Z.shiftl 1 2.
Definition MUTT_ACCT_PASS : Z := Z.shiftl 1 3.
Definition MUTT_ACCT_SSL : Z := Z.shiftl 1 4.

(** Modelled from the spec: [struct Account] of conn/account.h, which is not
    among the sources: three bounded text fields, the host, the port, the
    protocol and the flag set. *)
Record Account : Type := mkAccount {
  acct_user : string;
  acct_login : string;
  acct_pass : string;
  acct_host : string;
  acct_port : Z;
  acct_type : AccountType;
  acct_flags : Z
}.

(** The capacities of the account's character arrays ([sizeof]); the
    declaration is not among the sources, so they are taken as given. *)
Record Sizes : Type := mkSizes {
  sizeof_user : nat;
  sizeof_login : nat;
  sizeof_pass : nat;
  sizeof_host : nat
}.

(** [STRING], the size of the prompt buffers. *)
Definition STRING : nat := 256.

(** Conversion of an [int] to [unsigned char]. *)
Definition to_uchar (z : Z) : Z := z mod 256.

(** [flags & mask] used as a condition. *)
Definition has_flag (f mask : Z) : bool := truthy (Z.land f mask).

(** [flags |= mask] on the [unsigned char]. *)
Definition flags_or (f mask : Z) : Z := to_uchar (Z.lor f mask).

(** [flags &= ~mask] on the [unsigned char]. *)
Definition flags_and_not (f mask : Z) : Z := to_uchar (Z.land f (Z.lnot mask)).

Definition set_user (a : Account) (s : string) : Account :=
  mkAccount s (acct_login a) (acct_pass a) (acct_host a) (acct_port a)
            (acct_type a) (acct_flags a).

Definition set_login (a : Account) (s : string) : Account :=
  mkAccount (acct_user a) s (acct_pass a) (acct_host a) (acct_port a)
            (acct_type a) (acct_flags a).

Definition set_pass (a : Account) (s : string) : Account :=
  mkAccount (acct_user a) (acct_login a) s (acct_host a) (acct_port a)
            (acct_type a) (acct_flags a).

Definition set_host (a : Account) (s : string) : Account :=
  mkAccount (acct_user a) (acct_login a) (acct_pass a) s (acct_port a)
            (acct_type a) (acct_flags a).

Definition set_port (a : Account) (p : Z) : Account :=
  mkAccount (acct_user a) (acct_login a) (acct_pass a) (acct_host a) p
            (acct_type a) (acct_flags a).

Definition set_flags (a : Account) (f : Z) : Account :=
  mkAccount (acct_user a) (acct_login a) (acct_pass a) (acct_host a)
            (acct_port a) (acct_type a) f.

(** Modelled from the spec: [enum UrlScheme] of email/url.h, which is not
    among the sources: the eight schemes of the bridge's table and the
    unknown scheme. *)
Inductive UrlScheme : Type :=
| U_UNKNOWN
| U_IMAP | U_IMAPS
| U_POP | U_POPS
| U_SMTP | U_SMTPS
| U_NNTP | U_NNTPS.

(** Modelled from the spec: [struct Url] of email/url.h, which is not among
    the sources: scheme, host, user, pass, port and path; the absent port is
    0 and an absent string is [NULL]. *)
Record Url : Type := mkUrl {
  url_scheme : UrlScheme;
  url_user : option string;
  url_pass : option string;
  url_host : option string;
  url_port : Z;
  url_path : option string
}.

(** The configuration variables the file reads, and [OptNoCurses]. *)
Record Config : Type := mkConfig {
  Username : option string;
  ImapUser : option string;
  PopUser : option string;
  NntpUser : option string;
  ImapLogin : option string;
  ImapPass : option string;
  PopPass : option string;
  SmtpPass : option string;
  NntpPass : option string;
  ImapOauthRefreshCmd : option string;
  PopOauthRefreshCmd : option string;
  SmtpOauthRefreshCmd : option string;
  OptNoCurses : bool
}.

(* ===================================================================== *)
(** ** mutt_account_match *)
(* ===================================================================== *)

Definition mutt_account_match (cfg : Config) (a1 a2 : Account) : Z :=
  let user := NONULL (Username cfg) in
  if negb (type_eqb (acct_type a1) (acct_type a2)) then 0
  else if truthy (mutt_str_strcasecmp (acct_host a1) (acct_host a2)) then 0
  else if negb (acct_port a1 =? acct_port a2) then 0
  else
    let user :=
      if type_eqb (acct_type a1) MUTT_ACCT_TYPE_IMAP
      then (if nonnull (ImapUser cfg) then NONULL (ImapUser cfg) else user)
      else user in
    let user :=
      if (type_eqb (acct_type a1) MUTT_ACCT_TYPE_POP && nonnull (PopUser cfg))%bool
      then NONULL (PopUser cfg) else user in
    let user :=
      if (type_eqb (acct_type a1) MUTT_ACCT_TYPE_NNTP && nonnull (NntpUser cfg))%bool
      then NONULL (NntpUser cfg) else user in
    if truthy (Z.land (Z.land (acct_flags a1) (acct_flags a2)) MUTT_ACCT_USER)
    then Z.b2z (strcmp (acct_user a1) (acct_user a2) =? 0)
    else if type_eqb (acct_type a1) MUTT_ACCT_TYPE_NNTP
    then (if (has_flag (acct_flags a1) MUTT_ACCT_USER
              && first_char_set (acct_user a1))%bool then 0 else 1)
    else if has_flag (acct_flags a1) MUTT_ACCT_USER
    then Z.b2z (strcmp (acct_user a1) user =? 0)
    else if has_flag (acct_flags a2) MUTT_ACCT_USER
    then Z.b2z (strcmp (acct_user a2) user =? 0)
    else 1.

(* ===================================================================== *)
(** ** The URL bridge *)
(* ===================================================================== *)

(** [mutt_account_fromurl]: the result code and the account as the call
    leaves it. *)
Definition mutt_account_fromurl (sz : Sizes) (account : Account) (url : Url)
  : Z * Account :=
  match url_host url with
  | None => (-1, account)
  | Some h =>
    let account := set_host account (mutt_str_strfcpy h (sizeof_host sz)) in
    let account :=
      match url_user url with
      | Some u =>
        let account := set_user account (mutt_str_strfcpy u (sizeof_user sz)) in
        set_flags account (flags_or (acct_flags account) MUTT_ACCT_USER)
      | None => account
      end in
    let account :=
      match url_pass url with
      | Some p =>
        let account := set_pass account (mutt_str_strfcpy p (sizeof_pass sz)) in
        set_flags account (flags_or (acct_flags account) MUTT_ACCT_PASS)
      | None => account
      end in
    let account :=
      if truthy (url_port url)
      then
        let account := set_port account (url_port url) in
        set_flags account (flags_or (acct_flags account) MUTT_ACCT_PORT)
      else account in
    (0, account)
  end.

Definition with_scheme (url : Url) (s : UrlScheme) : Url :=
  mkUrl s (url_user url) (url_pass url) (url_host url) (url_port url) (url_path url).

Definition with_user (url : Url) (u : option string) : Url :=
  mkUrl (url_scheme url) u (url_pass url) (url_host url) (url_port url) (url_path url).

Definition with_pass (url : Url) (p : option string) : Url :=
  mkUrl (url_scheme url) (url_user url) p (url_host url) (url_port url) (url_path url).

Definition with_host (url : Url) (h : option string) : Url :=
  mkUrl (url_scheme url) (url_user url) (url_pass url) h (url_port url) (url_path url).

Definition with_port (url : Url) (p : Z) : Url :=
  mkUrl (url_scheme url) (url_user url) (url_pass url) (url_host url) p (url_path url).

Definition with_path (url : Url) (p : option string) : Url :=
  mkUrl (url_scheme url) (url_user url) (url_pass url) (url_host url) (url_port url) p.

(** One of the four scheme blocks of [mutt_account_tourl]. *)
Definition scheme_block (account : Account) (t : AccountType)
           (secure plain : UrlScheme) (url : Url) : Url :=
  if type_eqb (acct_type account) t
  then (if has_flag (acct_flags account) MUTT_ACCT_SSL
        then with_scheme url secure else with_scheme url plain)
  else url.

(** [mutt_account_tourl]: the URL as the call leaves it.  Its strings are
    pointers into the account; here they are the account's strings. *)
Definition mutt_account_tourl (account : Account) (url : Url) : Url :=
  let url := with_scheme url U_UNKNOWN in
  let url := with_user url None in
  let url := with_pass url None in
  let url := with_port url 0 in
  let url := with_path url None in
  let url := scheme_block account MUTT_ACCT_TYPE_IMAP U_IMAPS U_IMAP url in
  let url := scheme_block account MUTT_ACCT_TYPE_POP U_POPS U_POP url in
  let url := scheme_block account MUTT_ACCT_TYPE_SMTP U_SMTPS U_SMTP url in
  let url := scheme_block account MUTT_ACCT_TYPE_NNTP U_NNTPS U_NNTP url in
  let url := with_host url (Some (acct_host account)) in
  let url :=
    if has_flag (acct_flags account) MUTT_ACCT_PORT
    then with_port url (acct_port account) else url in
  let url :=
    if has_flag (acct_flags account) MUTT_ACCT_USER
    then with_user url (Some (acct_user account)) else url in
  let url :=
    if has_flag (acct_flags account) MUTT_ACCT_PASS
    then with_pass url (Some (acct_pass account)) else url in
  url.

(* ===================================================================== *)
(** ** The collaborators: prompts, the filter process, diagnostics *)
(* ===================================================================== *)

(** A [FILE *] handed out by [mutt_create_filter]. *)
Definition FILE : Type := Z.

(** What the file asks of the outside, in the order it asks. *)
Inductive Event : Type :=
| EvGetField (prompt buf : string)
| EvGetPassword (prompt : string)
| EvCreateFilter (cmd : string)
| EvReadLine (fp : FILE)
| EvFclose (fp : FILE)
| EvWaitFilter (pid : Z)
| EvError (msg : string)
| EvPerror (msg : string)
| EvDebug (level : Z) (msg : string).

(** The outside, over a state [World] of its own.  A prompt returns its
    result code and what it left in the buffer; [mutt_create_filter] returns
    the pid (negative on failure) and the stream of the child's standard
    output; [mutt_file_read_line] returns the line without its newline, or
    [NULL] at the end of the output. *)
Record Services (World : Type) : Type := mkServices {
  svc_get_field : string -> string -> nat -> Z -> World -> (Z * string) * World;
  svc_get_password : string -> string -> nat -> World -> (Z * string) * World;
  svc_create_filter : string -> World -> (Z * FILE) * World;
  svc_file_read_line : FILE -> World -> option string * World;
  svc_file_fclose : FILE -> World -> World;
  svc_wait_filter : Z -> World -> World
}.

Arguments svc_get_field {World} _ _ _ _ _ _.
Arguments svc_get_password {World} _ _ _ _ _.
Arguments svc_create_filter {World} _ _ _.
Arguments svc_file_read_line {World} _ _ _.
Arguments svc_file_fclose {World} _ _ _.
Arguments svc_wait_filter {World} _ _ _.

(** The state threaded through a call: the outside and the trace of what
    was asked of it. *)
Record Sys (World : Type) : Type := mkSys {
  world : World;
  trace : list Event
}.

Arguments mkSys {World} _ _.
Arguments world {World} _.
Arguments trace {World} _.

Definition M (World A : Type) : Type := Sys World -> A * Sys World.

Definition ret {World A : Type} (a : A) : M World A := fun s => (a, s).

Definition bind {World A B : Type} (c : M World A) (k : A -> M World B)
  : M World B :=
  fun s => let (a, s') := c s in k a s'.

Declare Scope acct_scope.
Delimit Scope acct_scope with acct.

Notation "x <- c ;; k" := (bind c (fun x => k))
  (at level 61, c at next level, right associativity) : acct_scope.
Notation "' pat <- c ;; k" := (bind c (fun x => match x with pat => k end))
  (at level 61, pat pattern, c at next level, right associativity) : acct_scope.
Notation "c ;; k" := (bind c (fun _ => k))
  (at level 61, right associativity) : acct_scope.

Definition log {World : Type} (e : Event) (s : Sys World) : Sys World :=
  mkSys (world s) (trace s ++ [e])%list.

(* ===================================================================== *)
(** ** Base64 *)
(* ===================================================================== *)

Definition B64Chars : string :=
  "ABCDEFGHIJKLMNOPQRSTUVWXYZabcdefghijklmnopqrstuvwxyz0123456789+/".

Definition b64_digit (n : nat) : ascii :=
  match String.get n B64Chars with
  | Some c => c
  | None => "="%char
  end.

Definition b64_pad : ascii := "="%char.

(** The standard encoding of a byte sequence: three bytes give four digits
    of six bits each, a last group of one or two bytes is padded with [=]. *)
Fixpoint b64_groups (l : list nat) : string :=
  match l with
  | [] => EmptyString
  | [a] =>
    String (b64_digit (a / 4))
      (String (b64_digit ((a mod 4) * 16))
         (String b64_pad (String b64_pad EmptyString)))
  | [a; b] =>
    String (b64_digit (a / 4))
      (String (b64_digit ((a mod 4) * 16 + b / 16))
         (String (b64_digit ((b mod 16) * 4))
            (String b64_pad EmptyString)))
  | a :: b :: c :: rest =>
    String (b64_digit (a / 4))
      (String (b64_digit ((a mod 4) * 16 + b / 16))
         (String (b64_digit ((b mod 16) * 4 + c / 64))
            (String (b64_digit (c mod 64)) (b64_groups rest))))
  end%nat.

Definition bytes_of (s : string) : list nat :=
  List.map nat_of_ascii (list_ascii_of_string s).

(** Modelled from the spec: [mutt_b64_encode(in, len, out, olen)] of
    mutt/base64.c, which is not among the sources.  The spec's encoding
    service is [base64Encode(bytes) -> string], standard alphabet, with
    padding; [len] bytes of [cin] are encoded.  The service has no capacity
    argument in the spec: [olen] is carried as the call passes it, and
    [b64_fits] below shows the text and its NUL fit the buffer the caller
    allocates. *)
Definition mutt_b64_encode (cin : string) (len : nat) (olen : nat) : string :=
  b64_groups (bytes_of (substring 0 len cin)).

(* ===================================================================== *)
(** ** The credential resolver and the token builder *)
(* ===================================================================== *)

Section Resolver.

Context {World : Type}.
Variable sv : Services World.
Variable cfg : Config.
Variable sz : Sizes.

Local Open Scope acct_scope.

Definition mutt_get_field_unbuffered (prompt buf : string) (buflen : nat)
           (fl : Z) : M World (Z * string) :=
  fun s =>
    let r := svc_get_field sv prompt buf buflen fl (world s) in
    (fst r, mkSys (snd r) (trace s ++ [EvGetField prompt buf])%list).

Definition mutt_get_password (prompt buf : string) (buflen : nat)
  : M World (Z * string) :=
  fun s =>
    let r := svc_get_password sv prompt buf buflen (world s) in
    (fst r, mkSys (snd r) (trace s ++ [EvGetPassword prompt])%list).

Definition mutt_create_filter (cmd : string) : M World (Z * FILE) :=
  fun s =>
    let r := svc_create_filter sv cmd (world s) in
    (fst r, mkSys (snd r) (trace s ++ [EvCreateFilter cmd])%list).

Definition mutt_file_read_line (fp : FILE) : M World (option string) :=
  fun s =>
    let r := svc_file_read_line sv fp (world s) in
    (fst r, mkSys (snd r) (trace s ++ [EvReadLine fp])%list).

Definition mutt_file_fclose (fp : FILE) : M World unit :=
  fun s => (tt, mkSys (svc_file_fclose sv fp (world s))
                      (trace s ++ [EvFclose fp])%list).

Definition mutt_wait_filter (pid : Z) : M World unit :=
  fun s => (tt, mkSys (svc_wait_filter sv pid (world s))
                      (trace s ++ [EvWaitFilter pid])%list).

Definition mutt_error (msg : string) : M World unit :=
  fun s => (tt, log (EvError msg) s).

Definition mutt_perror (msg : string) : M World unit :=
  fun s => (tt, log (EvPerror msg) s).

Definition mutt_debug (level : Z) (msg : string) : M World unit :=
  fun s => (tt, log (EvDebug level msg) s).

Definition msg_no_user_info : string :=
  "Couldn't get user info" ++ String (ascii_of_nat 10) EmptyString.

(** The tail shared by the successful paths of [mutt_account_getuser]. *)
Definition getuser_done (account : Account) : M World (Z * Account) :=
  ret (0, set_flags account (flags_or (acct_flags account) MUTT_ACCT_USER)).

Definition mutt_account_getuser (account : Account) : M World (Z * Account) :=
  (* already set *)
  if has_flag (acct_flags account) MUTT_ACCT_USER then ret (0, account)
  else if (type_eqb (acct_type account) MUTT_ACCT_TYPE_IMAP
           && nonnull (ImapUser cfg))%bool
  then getuser_done
         (set_user account
            (mutt_str_strfcpy (NONULL (ImapUser cfg)) (sizeof_user sz)))
  else if (type_eqb (acct_type account) MUTT_ACCT_TYPE_POP
           && nonnull (PopUser cfg))%bool
  then getuser_done
         (set_user account
            (mutt_str_strfcpy (NONULL (PopUser cfg)) (sizeof_user sz)))
  else if (type_eqb (acct_type account) MUTT_ACCT_TYPE_NNTP
           && nonnull (NntpUser cfg))%bool
  then getuser_done
         (set_user account
            (mutt_str_strfcpy (NONULL (NntpUser cfg)) (sizeof_user sz)))
  else if OptNoCurses cfg then ret (-1, account)
  else
    (* prompt (defaults to unix username), copy into account->user *)
    let prompt := snprintf STRING ("Username at " ++ acct_host account ++ ": ") in
    let account :=
      set_user account
        (mutt_str_strfcpy (NONULL (Username cfg)) (sizeof_user sz)) in
    ' (rc, buf) <- mutt_get_field_unbuffered prompt (acct_user account)
                     (sizeof_user sz) 0 ;;
    let account := set_user account buf in
    if truthy rc then ret (-1, account)
    else getuser_done account.

Definition mutt_account_getlogin (account : Account) : M World (Z * Account) :=
  (* already set *)
  if has_flag (acct_flags account) MUTT_ACCT_LOGIN then ret (0, account)
  else
    let account :=
      if type_eqb (acct_type account) MUTT_ACCT_TYPE_IMAP
      then
        match ImapLogin cfg with
        | Some l =>
          let account :=
            set_login account (mutt_str_strfcpy l (sizeof_login sz)) in
          set_flags account (flags_or (acct_flags account) MUTT_ACCT_LOGIN)
        | None => account
        end
      else account in
    if negb (has_flag (acct_flags account) MUTT_ACCT_LOGIN)
    then
      ' (rc, account) <- mutt_account_getuser account ;;
      if rc =? 0
      then
        let account :=
          set_login account
            (mutt_str_strfcpy (acct_user account) (sizeof_login sz)) in
        ret (0, set_flags account
                  (flags_or (acct_flags account) MUTT_ACCT_LOGIN))
      else
        mutt_debug 1 msg_no_user_info ;;
        ret (-1, account)
    else ret (0, account).

(** The tail shared by the successful paths of [mutt_account_getpass]. *)
Definition getpass_done (account : Account) : M World (Z * Account) :=
  ret (0, set_flags account (flags_or (acct_flags account) MUTT_ACCT_PASS)).

Definition mutt_account_getpass (account : Account) : M World (Z * Account) :=
  if has_flag (acct_flags account) MUTT_ACCT_PASS then ret (0, account)
  else if (type_eqb (acct_type account) MUTT_ACCT_TYPE_IMAP
           && nonnull (ImapPass cfg))%bool
  then getpass_done
         (set_pass account
            (mutt_str_strfcpy (NONULL (ImapPass cfg)) (sizeof_pass sz)))
  else if (type_eqb (acct_type account) MUTT_ACCT_TYPE_POP
           && nonnull (PopPass cfg))%bool
  then getpass_done
         (set_pass account
            (mutt_str_strfcpy (NONULL (PopPass cfg)) (sizeof_pass sz)))
  else if (type_eqb (acct_type account) MUTT_ACCT_TYPE_SMTP
           && nonnull (SmtpPass cfg))%bool
  then getpass_done
         (set_pass account
            (mutt_str_strfcpy (NONULL (SmtpPass cfg)) (sizeof_pass sz)))
  else if (type_eqb (acct_type account) MUTT_ACCT_TYPE_NNTP
           && nonnull (NntpPass cfg))%bool
  then getpass_done
         (set_pass account
            (mutt_str_strfcpy (NONULL (NntpPass cfg)) (sizeof_pass sz)))
  else if OptNoCurses cfg then ret (-1, account)
  else
    let prompt :=
      snprintf STRING
        ("Password for "
           ++ (if has_flag (acct_flags account) MUTT_ACCT_LOGIN
               then acct_login account else acct_user account)
           ++ "@" ++ acct_host account ++ ": ") in
    let account := set_pass account "" in
    ' (rc, buf) <- mutt_get_password prompt (acct_pass account)
                     (sizeof_pass sz) ;;
    let account := set_pass account buf in
    if truthy rc then ret (-1, account)
    else getpass_done account.

Definition mutt_account_unsetpass (account : Account) : Account :=
  set_flags account (flags_and_not (acct_flags account) MUTT_ACCT_PASS).

(** The refresh command selected by the [if / else if] chain. *)
Definition refresh_cmd (account : Account) : option string :=
  if (type_eqb (acct_type account) MUTT_ACCT_TYPE_IMAP
      && nonnull (ImapOauthRefreshCmd cfg))%bool
  then ImapOauthRefreshCmd cfg
  else if (type_eqb (acct_type account) MUTT_ACCT_TYPE_POP
           && nonnull (PopOauthRefreshCmd cfg))%bool
  then PopOauthRefreshCmd cfg
  else if (type_eqb (acct_type account) MUTT_ACCT_TYPE_SMTP
           && nonnull (SmtpOauthRefreshCmd cfg))%bool
  then SmtpOauthRefreshCmd cfg
  else None.

(** The bytes [snprintf] leaves in [oauthbearer]. *)
Definition oauthbearer_string (account : Account) (token : string) : string :=
  let oalen :=
    (strlen (acct_login account) + strlen (acct_host account)
     + strlen token + 50)%nat in
  snprintf oalen
    ("n,a=" ++ acct_login account ++ "," ++ SOH
       ++ "host=" ++ acct_host account ++ SOH
       ++ "port=" ++ fmt_d (acct_port account) ++ SOH
       ++ "auth=Bearer " ++ token ++ SOH ++ SOH).

Definition msg_no_refresh_cmd : string :=
  "mutt_account_getoauthbearer: No OAUTH refresh command defined".

Definition msg_unable_to_run : string :=
  "mutt_account_getoauthbearer: Unable to run refresh command".

Definition msg_empty_string : string :=
  "mutt_account_getoauthbearer: Command returned empty string".

(** [mutt_account_getoauthbearer]: the encoded token ([None] for [NULL]) and
    the account as the call leaves it. *)
Definition mutt_account_getoauthbearer (account : Account)
  : M World (option string * Account) :=
  (* The oauthbearer token includes the login *)
  ' (rc, account) <- mutt_account_getlogin account ;;
  if truthy rc then ret (None, account)
  else
    match refresh_cmd account with
    | None =>
      mutt_error msg_no_refresh_cmd ;;
      ret (None, account)
    | Some cmd =>
      ' (pid, fp) <- mutt_create_filter cmd ;;
      if pid <? 0
      then
        mutt_perror msg_unable_to_run ;;
        ret (None, account)
      else
        (* read line *)
        token <- mutt_file_read_line fp ;;
        mutt_file_fclose fp ;;
        mutt_wait_filter pid ;;
        if (negb (nonnull token) || negb (first_char_set (NONULL token)))%bool
        then
          mutt_error msg_empty_string ;;
          ret (None, account)
        else
          let oauthbearer := oauthbearer_string account (NONULL token) in
          let encoded_len := (strlen oauthbearer * 4 / 3 + 10)%nat in
          ret (Some (mutt_b64_encode oauthbearer (strlen oauthbearer)
                       encoded_len),
               account)
    end.

End Resolver.

(* ===================================================================== *)
(** ** Vocabulary of the statements, and sample data *)
(* ===================================================================== *)

(** No variable set, prompts allowed. *)
Definition cfg_unset : Config :=
  mkConfig None None None None None None None None None None None None false.

(** The array sizes of a usual build. *)
Definition sizes_usual : Sizes := mkSizes 64 64 256 128.



(** Two IMAP accounts for the same server and port 143: in the first the
    port was given explicitly, in the second it is the default the caller
    stored without setting the flag. *)
Definition imap_port_flagged : Account :=
  mkAccount "" "" "" "mail.example.com" 143 MUTT_ACCT_TYPE_IMAP MUTT_ACCT_PORT.

Definition imap_port_unflagged : Account :=
  mkAccount "" "" "" "mail.example.com" 143 MUTT_ACCT_TYPE_IMAP 0.





(** What a bounded array of [n] bytes holds of [x]: [x] itself when it is
    shorter than the array, its first [n - 1] bytes otherwise. *)
Definition stored (x : string) (n : nat) : string :=
  if (String.length x <? n)%nat then x else substring 0 (n - 1) x.

(** The login variable of a protocol; only IMAP has one. *)
Definition configured_login (cfg : Config) (t : AccountType)
  : option string :=
  match t with
  | MUTT_ACCT_TYPE_IMAP => ImapLogin cfg
  | _ => None
  end.

(** Flag sets that agree on every bit but PORT. *)
Definition same_but_PORT (f g : Z) : Prop :=
  forall n, 0 < n -> Z.testbit f n = Z.testbit g n.

(** A string of the URL fits an array of [n] bytes with its NUL; an absent
    string fits any array. *)
Definition fits (s : option string) (n : nat) : Prop :=
  match s with
  | Some x => (String.length x < n)%nat
  | None => True
  end.

(** A cleared account, as the callers prepare it before [fromurl]. *)
Definition acct_zero (t : AccountType) : Account :=
  mkAccount "" "" "" "" 0 t 0.

Fixpoint repeat_char (c : ascii) (n : nat) : string :=
  match n with
  | O => EmptyString
  | S k => String c (repeat_char c k)
  end.

(** A URL whose host is present and empty. *)
Definition url_empty_host : Url :=
  mkUrl U_UNKNOWN None None (Some "") 0 None.

(** A URL whose host has 200 bytes. *)
Definition url_long_host : Url :=
  mkUrl U_UNKNOWN None None (Some (repeat_char "a" 200)) 0 None.

(** A URL with every field the bridge reads. *)
Definition url_full : Url :=
  mkUrl U_UNKNOWN (Some "bob") (Some "hunter2") (Some "mail.example.com")
        993 (Some "INBOX").

(** A URL with a host only. *)
Definition url_host_only : Url :=
  mkUrl U_UNKNOWN None None (Some "mail.example.com") 0 None.

(** An account whose user is already recorded. *)
Definition imap_with_user : Account :=
  mkAccount "alice" "" "" "" 0 MUTT_ACCT_TYPE_IMAP MUTT_ACCT_USER.

(** The three fields the resolver fills, each with its operation, its flag
    bit and its place in the account. *)
Inductive Field : Type :=
| F_USER
| F_LOGIN
| F_PASS.

Definition resolve {World : Type} (f : Field)
  : Services World -> Config -> Sizes -> Account -> M World (Z * Account) :=
  match f with
  | F_USER => mutt_account_getuser
  | F_LOGIN => mutt_account_getlogin
  | F_PASS => mutt_account_getpass
  end.

Definition field_flag (f : Field) : Z :=
  match f with
  | F_USER => MUTT_ACCT_USER
  | F_LOGIN => MUTT_ACCT_LOGIN
  | F_PASS => MUTT_ACCT_PASS
  end.

Definition field_value (f : Field) (a : Account) : string :=
  match f with
  | F_USER => acct_user a
  | F_LOGIN => acct_login a
  | F_PASS => acct_pass a
  end.

(** The part of [mutt_account_getlogin] that falls back on
    [mutt_account_getuser], named for the proofs. *)
Definition login_from_user {World : Type} (sv : Services World)
           (cfg : Config) (sz : Sizes) (a : Account) : M World (Z * Account) :=
  bind (mutt_account_getuser sv cfg sz a)
       (fun x =>
          match x with
          | (rc, account) =>
            if rc =? 0
            then
              ret (0, set_flags
                        (set_login account
                           (mutt_str_strfcpy (acct_user account)
                              (sizeof_login sz)))
                        (flags_or (acct_flags account) MUTT_ACCT_LOGIN))
            else
              bind (mutt_debug 1 msg_no_user_info)
                   (fun _ => ret (-1, account))
          end).

(** The password variable of a protocol. *)
Definition configured_pass (cfg : Config) (t : AccountType) : option string :=
  match t with
  | MUTT_ACCT_TYPE_IMAP => ImapPass cfg
  | MUTT_ACCT_TYPE_POP => PopPass cfg
  | MUTT_ACCT_TYPE_SMTP => SmtpPass cfg
  | MUTT_ACCT_TYPE_NNTP => NntpPass cfg
  | MUTT_ACCT_TYPE_NONE => None
  end.

(** The refresh-command variable of a protocol; the news protocol has
    none. *)
Definition configured_refresh_cmd (cfg : Config) (t : AccountType)
  : option string :=
  match t with
  | MUTT_ACCT_TYPE_IMAP => ImapOauthRefreshCmd cfg
  | MUTT_ACCT_TYPE_POP => PopOauthRefreshCmd cfg
  | MUTT_ACCT_TYPE_SMTP => SmtpOauthRefreshCmd cfg
  | MUTT_ACCT_TYPE_NNTP => None
  | MUTT_ACCT_TYPE_NONE => None
  end.

(** The text of the password prompt. *)
Definition pass_prompt (account : Account) : string :=
  snprintf STRING
    ("Password for "
       ++ (if has_flag (acct_flags account) MUTT_ACCT_LOGIN
           then acct_login account else acct_user account)
       ++ "@" ++ acct_host account ++ ": ").

(** An event that starts a process. *)
Definition is_spawn (e : Event) : bool :=
  match e with
  | EvCreateFilter _ => true
  | _ => false
  end.

(** Every bit of the [unsigned char] set in [f] is set in [g]. *)
Definition flags_kept (f g : Z) : Prop :=
  forall n, 0 <= n < 8 -> Z.testbit f n = true -> Z.testbit g n = true.

(** A user who accepts the default name and types a password; a refresh
    command that prints one token. *)
Definition sv_sample : Services unit :=
  mkServices unit
    (fun _ buf _ _ w => ((0, buf), w))
    (fun _ _ _ w => ((0, "secret"), w))
    (fun _ w => ((7, 3), w))
    (fun _ w => (Some "tok123", w))
    (fun _ w => w)
    (fun _ w => w).

(** A user who cancels every prompt. *)
Definition sv_cancel : Services unit :=
  mkServices unit
    (fun _ buf _ _ w => ((-1, buf), w))
    (fun _ buf _ w => ((-1, buf), w))
    (fun _ w => ((7, 3), w))
    (fun _ w => (Some "tok123", w))
    (fun _ w => w)
    (fun _ w => w).

Definition sys0 : Sys unit := mkSys tt [].

(** IMAP login configured, no refresh command. *)
Definition cfg_imap_login : Config :=
  mkConfig (Some "me") None None None (Some "bob") None None None None
           None None None false.

(** IMAP login and refresh command configured. *)
Definition cfg_imap_oauth : Config :=
  mkConfig (Some "me") None None None (Some "bob") None None None None
           (Some "refresh-token") None None false.

(** News user configured, and refresh commands for the three other
    protocols. *)
Definition cfg_news : Config :=
  mkConfig (Some "me") None None (Some "reader") None None None None None
           (Some "refresh-imap") (Some "refresh-pop") (Some "refresh-smtp")
           false.

Definition imap_993 : Account :=
  mkAccount "" "" "" "mail.example.com" 993 MUTT_ACCT_TYPE_IMAP MUTT_ACCT_PORT.

Definition news_119 : Account :=
  mkAccount "" "" "" "news.example.com" 119 MUTT_ACCT_TYPE_NNTP MUTT_ACCT_PORT.

(** [imap_993] once the password has been typed. *)
Definition imap_993_pass : Account :=
  mkAccount "" "" "secret" "mail.example.com" 993 MUTT_ACCT_TYPE_IMAP
            (Z.lor MUTT_ACCT_PORT MUTT_ACCT_PASS).

(** [imap_993] once the configured login has been copied in. *)
Definition imap_993_login : Account :=
  mkAccount "" "bob" "" "mail.example.com" 993 MUTT_ACCT_TYPE_IMAP
            (Z.lor MUTT_ACCT_PORT MUTT_ACCT_LOGIN).

(** [news_119] once the configured user has become the login. *)
Definition news_119_login : Account :=
  mkAccount "reader" "reader" "" "news.example.com" 119 MUTT_ACCT_TYPE_NNTP
            (Z.lor (Z.lor MUTT_ACCT_PORT MUTT_ACCT_USER) MUTT_ACCT_LOGIN).

(** The initial response of the spec's example, before encoding. *)
Definition bearer_example : string :=
  "n,a=bob," ++ SOH ++ "host=mail.example.com" ++ SOH ++ "port=993" ++ SOH
    ++ "auth=Bearer tok123" ++ SOH ++ SOH.

Definition bearer_example_b64 : string :=
  "bixhPWJvYiwBaG9zdD1tYWlsLmV4YW1wbGUuY29tAXBvcnQ9OTkzAWF1dGg9QmVhcmVyIHRvazEyMwEB".

(** The fields an operation of the resolver may write: its own, and for
    [getlogin] the user it falls back on. *)
Definition may_touch (f g : Field) : bool :=
  match f, g with
  | F_USER, F_USER => true
  | F_LOGIN, F_LOGIN => true
  | F_LOGIN, F_USER => true
  | F_PASS, F_PASS => true
  | _, _ => false
  end.


(** The name an account without a recorded user is compared under: the
    user variable of its protocol when that is set, else the login name of
    the process.  SMTP has no user variable. *)
Definition default_user (cfg : Config) (t : AccountType) : string :=
  match t with
  | MUTT_ACCT_TYPE_IMAP =>
    match ImapUser cfg with Some u => u | None => NONULL (Username cfg) end
  | MUTT_ACCT_TYPE_POP =>
    match PopUser cfg with Some u => u | None => NONULL (Username cfg) end
  | MUTT_ACCT_TYPE_NNTP =>
    match NntpUser cfg with Some u => u | None => NONULL (Username cfg) end
  | _ => NONULL (Username cfg)
  end.

(** The user variable of a protocol; SMTP has none. *)
Definition configured_user (cfg : Config) (t : AccountType) : option string :=
  match t with
  | MUTT_ACCT_TYPE_IMAP => ImapUser cfg
  | MUTT_ACCT_TYPE_POP => PopUser cfg
  | MUTT_ACCT_TYPE_NNTP => NntpUser cfg
  | MUTT_ACCT_TYPE_SMTP => None
  | MUTT_ACCT_TYPE_NONE => None
  end.

(** An event that waits for the user. *)
Definition is_prompt (e : Event) : bool :=
  match e with
  | EvGetField _ _ => true
  | EvGetPassword _ => true
  | _ => false
  end.

(** An account as the C type holds it: the flag set is an [unsigned char]
    and the strings the bridge reads fit their arrays. *)
Definition account_fits (sz : Sizes) (a : Account) : Prop :=
  0 <= acct_flags a < 256
  /\ (String.length (acct_host a) < sizeof_host sz)%nat
  /\ (String.length (acct_user a) < sizeof_user sz)%nat
  /\ (String.length (acct_pass a) < sizeof_pass sz)%nat.

(** The [n] ports from [p] on print in at most five digits. *)
Fixpoint ports_print_short (n : nat) (p : Z) : bool :=
  match n with
  | O => true
  | S k =>
    (Nat.leb (String.length (fmt_d p)) 5 && ports_print_short k (p + 1))%bool
  end.

(** The message of the token builder, whole. *)
Definition bearer_message (login host : string) (port : Z) (token : string)
  : string :=
  "n,a=" ++ login ++ "," ++ SOH
    ++ "host=" ++ host ++ SOH
    ++ "port=" ++ fmt_d port ++ SOH
    ++ "auth=Bearer " ++ token ++ SOH ++ SOH.

(** Prompts are not allowed; the IMAP and POP users are configured. *)
Definition cfg_batch : Config :=
  mkConfig (Some "me") (Some "bob") (Some "carol") None None None None None
           None None None None true.

(** An IMAP account with every field recorded. *)
Definition imap_full : Account :=
  mkAccount "bob" "bob" "hunter2" "Mail.Example.COM" 993 MUTT_ACCT_TYPE_IMAP
            (Z.lor (Z.lor (Z.lor MUTT_ACCT_PORT MUTT_ACCT_USER) MUTT_ACCT_LOGIN)
                   MUTT_ACCT_PASS).

(** The same server and user, written in lower case, nothing else
    recorded. *)
Definition imap_lower : Account :=
  mkAccount "bob" "" "" "mail.example.com" 993 MUTT_ACCT_TYPE_IMAP
            MUTT_ACCT_USER.

Definition smtp_25 : Account :=
  mkAccount "" "" "" "smtp.example.com" 25 MUTT_ACCT_TYPE_SMTP MUTT_ACCT_PORT.

(** A refresh command that prints an empty line. *)
Definition sv_blank_line : Services unit :=
  mkServices unit
    (fun _ buf _ _ w => ((0, buf), w))
    (fun _ _ _ w => ((0, "secret"), w))
    (fun _ w => ((7, 3), w))
    (fun _ w => (Some "", w))
    (fun _ w => w)
    (fun _ w => w).

(** A refresh command that cannot be started. *)
Definition sv_no_spawn : Services unit :=
  mkServices unit
    (fun _ buf _ _ w => ((0, buf), w))
    (fun _ _ _ w => ((0, "secret"), w))
    (fun _ w => ((-1, 0), w))
    (fun _ w => (Some "tok123", w))
    (fun _ w => w)
    (fun _ w => w).

(** A user who enters an empty password. *)
Definition sv_empty_pass : Services unit :=
  mkServices unit
    (fun _ buf _ _ w => ((0, buf), w))
    (fun _ _ _ w => ((0, ""), w))
    (fun _ w => ((7, 3), w))
    (fun _ w => (Some "tok123", w))
    (fun _ w => w)
    (fun _ w => w).

(* ===================================================================== *)
(** ** Strings and flag bits: basic facts *)
(* ===================================================================== *)

Lemma string_compare_refl (a : string) : String.compare a a = Eq.
Proof.
  pose proof (String.compare_antisym a a) as H.
  destruct (String.compare a a); simpl in H; congruence.
Qed.

Lemma strcmp_zero_iff (a b : string) : strcmp a b = 0 <-> a = b.
Proof.
  unfold strcmp. split.
  - destruct (String.compare a b) eqn:E; try discriminate.
    intros _. now apply String.compare_eq_iff.
  - intros ->. now rewrite string_compare_refl.
Qed.

Lemma strcmp_zero_sym (a b : string) : (strcmp a b =? 0) = (strcmp b a =? 0).
Proof.
  destruct (strcmp a b =? 0) eqn:E1; destruct (strcmp b a =? 0) eqn:E2;
    try reflexivity.
  - apply Z.eqb_eq, strcmp_zero_iff in E1. symmetry in E1.
    apply strcmp_zero_iff in E1. rewrite E1 in E2. discriminate.
  - apply Z.eqb_eq, strcmp_zero_iff in E2. symmetry in E2.
    apply strcmp_zero_iff in E2. rewrite E2 in E1. discriminate.
Qed.

Lemma strcmp_refl (a : string) : strcmp a a = 0.
Proof. now apply strcmp_zero_iff. Qed.

Lemma truthy_strcasecmp_sym (a b : string) :
  truthy (mutt_str_strcasecmp a b) = truthy (mutt_str_strcasecmp b a).
Proof.
  unfold truthy, mutt_str_strcasecmp. now rewrite strcmp_zero_sym.
Qed.

Lemma type_eqb_sym (t1 t2 : AccountType) : type_eqb t1 t2 = type_eqb t2 t1.
Proof. destruct t1, t2; reflexivity. Qed.

Lemma type_eqb_eq (t1 t2 : AccountType) : type_eqb t1 t2 = true <-> t1 = t2.
Proof. destruct t1, t2; simpl; split; intros H; congruence. Qed.

Lemma type_eqb_refl (t : AccountType) : type_eqb t t = true.
Proof. destruct t; reflexivity. Qed.

Lemma testbit_one_shift (k n : Z) :
  0 <= k -> Z.testbit (Z.shiftl 1 k) n = (n =? k).
Proof.
  intros Hk. now rewrite Z.shiftl_1_l, Z.pow2_bits_eqb, Z.eqb_sym by lia.
Qed.

(** A test against a one-bit mask reads that bit. *)
Lemma has_flag_bit (f k : Z) :
  0 <= k -> has_flag f (Z.shiftl 1 k) = Z.testbit f k.
Proof.
  intros Hk. unfold has_flag, truthy.
  destruct (Z.testbit f k) eqn:Ebit.
  - destruct (Z.land f (Z.shiftl 1 k) =? 0) eqn:E; [| reflexivity].
    apply Z.eqb_eq in E.
    assert (Hb : Z.testbit (Z.land f (Z.shiftl 1 k)) k = true).
    { now rewrite Z.land_spec, Ebit, testbit_one_shift, Z.eqb_refl by lia. }
    rewrite E, Z.bits_0 in Hb. discriminate.
  - assert (E : Z.land f (Z.shiftl 1 k) = 0).
    { apply Z.bits_inj'. intros n Hn.
      rewrite Z.land_spec, Z.bits_0, testbit_one_shift by lia.
      destruct (Z.eqb_spec n k) as [-> | Hne].
      - now rewrite Ebit.
      - apply andb_false_r. }
    rewrite E. reflexivity.
Qed.

Lemma has_flag_PORT (f : Z) : has_flag f MUTT_ACCT_PORT = Z.testbit f 0.
Proof. apply has_flag_bit. lia. Qed.

Lemma has_flag_USER (f : Z) : has_flag f MUTT_ACCT_USER = Z.testbit f 1.
Proof. apply has_flag_bit. lia. Qed.

Lemma has_flag_LOGIN (f : Z) : has_flag f MUTT_ACCT_LOGIN = Z.testbit f 2.
Proof. apply has_flag_bit. lia. Qed.

Lemma has_flag_PASS (f : Z) : has_flag f MUTT_ACCT_PASS = Z.testbit f 3.
Proof. apply has_flag_bit. lia. Qed.

Lemma has_flag_SSL (f : Z) : has_flag f MUTT_ACCT_SSL = Z.testbit f 4.
Proof. apply has_flag_bit. lia. Qed.

Lemma to_uchar_bit (z n : Z) :
  0 <= n -> Z.testbit (to_uchar z) n = ((n <? 8) && Z.testbit z n)%bool.
Proof.
  intros Hn. unfold to_uchar. change 256 with (2 ^ 8).
  destruct (Z.ltb_spec n 8).
  - now rewrite Z.mod_pow2_bits_low by lia.
  - now rewrite Z.mod_pow2_bits_high by lia.
Qed.

(** [flags |= 1 << k] sets bit [k] and keeps the other seven. *)
Lemma flags_or_bit (f k n : Z) :
  0 <= k -> 0 <= n ->
  Z.testbit (flags_or f (Z.shiftl 1 k)) n
  = ((n <? 8) && (Z.testbit f n || (n =? k)))%bool.
Proof.
  intros Hk Hn. unfold flags_or.
  now rewrite to_uchar_bit, Z.lor_spec, testbit_one_shift by lia.
Qed.

(** [flags &= ~(1 << k)] clears bit [k] and keeps the other seven. *)
Lemma flags_and_not_bit (f k n : Z) :
  0 <= k -> 0 <= n ->
  Z.testbit (flags_and_not f (Z.shiftl 1 k)) n
  = ((n <? 8) && (Z.testbit f n && negb (n =? k)))%bool.
Proof.
  intros Hk Hn. unfold flags_and_not.
  now rewrite to_uchar_bit, Z.land_spec, Z.lnot_spec, testbit_one_shift by lia.
Qed.

Lemma land_land_USER (f1 f2 : Z) :
  truthy (Z.land (Z.land f1 f2) MUTT_ACCT_USER)
  = (has_flag f1 MUTT_ACCT_USER && has_flag f2 MUTT_ACCT_USER)%bool.
Proof.
  change (truthy (Z.land (Z.land f1 f2) MUTT_ACCT_USER))
    with (has_flag (Z.land f1 f2) MUTT_ACCT_USER).
  rewrite !has_flag_USER. apply Z.land_spec.
Qed.

(* ===================================================================== *)
(** ** The matcher *)
(* ===================================================================== *)

Section Matcher.

Variable cfg : Config.

(** An account matches itself. *)
Lemma match_refl (a : Account) : mutt_account_match cfg a a = 1.
Proof.
  unfold mutt_account_match.
  rewrite type_eqb_refl. simpl negb. cbv iota.
  unfold mutt_str_strcasecmp. rewrite strcmp_refl. simpl truthy. cbv iota.
  rewrite Z.eqb_refl. simpl negb. cbv iota. cbv zeta.
  rewrite land_land_USER.
  destruct (has_flag (acct_flags a) MUTT_ACCT_USER) eqn:EU; simpl.
  - now rewrite strcmp_refl.
  - destruct (type_eqb (acct_type a) MUTT_ACCT_TYPE_NNTP); reflexivity.
Qed.

(** Outside the news block the comparison treats its arguments alike. *)
Lemma match_sym_not_news (a1 a2 : Account) :
  acct_type a1 <> MUTT_ACCT_TYPE_NNTP ->
  mutt_account_match cfg a1 a2 = mutt_account_match cfg a2 a1.
Proof.
  intros Hnews. unfold mutt_account_match.
  rewrite (type_eqb_sym (acct_type a2) (acct_type a1)).
  destruct (type_eqb (acct_type a1) (acct_type a2)) eqn:Et; [| reflexivity].
  apply type_eqb_eq in Et. rewrite <- Et. simpl negb. cbv iota.
  rewrite (truthy_strcasecmp_sym (acct_host a2) (acct_host a1)).
  destruct (truthy (mutt_str_strcasecmp (acct_host a1) (acct_host a2)));
    [reflexivity |].
  rewrite (Z.eqb_sym (acct_port a2) (acct_port a1)).
  destruct (acct_port a1 =? acct_port a2); [| reflexivity].
  simpl negb. cbv iota zeta.
  rewrite !land_land_USER.
  assert (En : type_eqb (acct_type a1) MUTT_ACCT_TYPE_NNTP = false).
  { destruct (acct_type a1); try reflexivity. now elim Hnews. }
  rewrite En.
  rewrite (strcmp_zero_sym (acct_user a2) (acct_user a1)).
  destruct (has_flag (acct_flags a1) MUTT_ACCT_USER);
    destruct (has_flag (acct_flags a2) MUTT_ACCT_USER); reflexivity.
Qed.

(** Only the USER bit of the flag sets is read. *)
Lemma match_reads_USER_only (a1 a2 : Account) (f1 f2 : Z) :
  Z.testbit f1 1 = Z.testbit (acct_flags a1) 1 ->
  Z.testbit f2 1 = Z.testbit (acct_flags a2) 1 ->
  mutt_account_match cfg (set_flags a1 f1) (set_flags a2 f2)
  = mutt_account_match cfg a1 a2.
Proof.
  intros H1 H2. unfold mutt_account_match. simpl.
  rewrite !land_land_USER, !has_flag_USER, H1, H2. reflexivity.
Qed.

End Matcher.




(** C3, refuted as stated: two accounts that differ only in the PORT flag
    (port 143 given explicitly, port 143 stored as the default) match. *)
Lemma match_ignores_PORT_flag_example :
  acct_flags imap_port_flagged = MUTT_ACCT_PORT
  /\ acct_flags imap_port_unflagged = 0
  /\ imap_port_unflagged = set_flags imap_port_flagged 0
  /\ mutt_account_match cfg_unset imap_port_flagged imap_port_unflagged = 1
  /\ mutt_account_match cfg_unset imap_port_flagged imap_port_unflagged <> 0.
Proof. repeat split. discriminate. Qed.

(** C3, amended: the port numbers are compared for exact equality and the
    PORT flag is not consulted.  Two accounts that are identical except for
    the PORT flag bit and the port number match exactly when the port
    numbers are equal. *)
Theorem match_compares_port_numbers
        (cfg : Config) (a : Account) (p f : Z) :
  same_but_PORT f (acct_flags a) ->
  mutt_account_match cfg a (set_flags (set_port a p) f)
  = Z.b2z (acct_port a =? p)
  /\ mutt_account_match cfg (set_flags (set_port a p) f) a
     = Z.b2z (acct_port a =? p).
Proof.
  intros Hf.
  assert (Ea : set_flags a (acct_flags a) = a) by (destruct a; reflexivity).
  assert (Hp : forall q, mutt_account_match cfg a (set_port a q)
                         = Z.b2z (acct_port a =? q)
                         /\ mutt_account_match cfg (set_port a q) a
                            = Z.b2z (acct_port a =? q)).
  { intros q. destruct (Z.eqb_spec (acct_port a) q) as [<- | Hne].
    - replace (set_port a (acct_port a)) with a by (destruct a; reflexivity).
      split; apply match_refl.
    - unfold mutt_account_match. simpl.
      rewrite type_eqb_refl. unfold mutt_str_strcasecmp.
      rewrite strcmp_refl. simpl.
      rewrite (Z.eqb_sym q).
      destruct (Z.eqb_spec (acct_port a) q); [contradiction |].
      split; reflexivity. }
  split.
  - rewrite <- (proj1 (Hp p)).
    rewrite <- Ea at 1.
    apply (match_reads_USER_only cfg a (set_port a p) (acct_flags a) f).
    + reflexivity.
    + apply Hf. lia.
  - rewrite <- (proj2 (Hp p)).
    rewrite <- Ea at 2.
    apply (match_reads_USER_only cfg (set_port a p) a f (acct_flags a)).
    + apply Hf. lia.
    + reflexivity.
Qed.

Lemma match_compares_port_numbers_witness :
  same_but_PORT 0 (acct_flags imap_port_flagged)
  /\ mutt_account_match cfg_unset imap_port_flagged
       (set_flags (set_port imap_port_flagged 993) 0) = 0.
Proof.
  assert (H : same_but_PORT 0 (acct_flags imap_port_flagged)).
  { intros n Hn. rewrite Z.bits_0. simpl acct_flags.
    unfold MUTT_ACCT_PORT. rewrite testbit_one_shift by lia.
    symmetry. apply Z.eqb_neq. lia. }
  split; [exact H |].
  exact (proj1 (match_compares_port_numbers cfg_unset imap_port_flagged 993 0 H)).
Defined.

(* ===================================================================== *)
(** ** The URL bridge *)
(* ===================================================================== *)

Lemma substring_all (s : string) (n : nat) :
  (String.length s <= n)%nat -> substring 0 n s = s.
Proof.
  revert n. induction s as [| c r IH]; intros n Hn.
  - destruct n; reflexivity.
  - destruct n as [| k]; simpl in Hn; [lia |].
    simpl. f_equal. apply IH. lia.
Qed.

(** A string shorter than the array is copied whole. *)
Lemma strfcpy_short (s : string) (n : nat) :
  (String.length s < n)%nat -> mutt_str_strfcpy s n = s.
Proof. intros H. apply substring_all. lia. Qed.

Lemma length_substring_le (s : string) (n : nat) :
  (String.length (substring 0 n s) <= n)%nat.
Proof.
  revert n. induction s as [| c r IH]; intros [| k]; simpl; try lia.
  specialize (IH k). lia.
Qed.

(** Whatever the source, the copy fits the array. *)
Lemma strfcpy_bounded (s : string) (n : nat) :
  (0 < n)%nat -> (String.length (mutt_str_strfcpy s n) < n)%nat.
Proof.
  intros Hn. unfold mutt_str_strfcpy.
  pose proof (length_substring_le s (n - 1)). lia.
Qed.

(** Rewrites flag tests into bit tests and evaluates them. *)
Ltac flag_bits :=
  rewrite ?has_flag_PORT, ?has_flag_USER, ?has_flag_LOGIN, ?has_flag_PASS,
    ?has_flag_SSL in *;
  unfold MUTT_ACCT_PORT, MUTT_ACCT_USER, MUTT_ACCT_LOGIN, MUTT_ACCT_PASS,
    MUTT_ACCT_SSL in *;
  rewrite ?flags_or_bit, ?flags_and_not_bit by lia;
  simpl Z.ltb; simpl Z.eqb; simpl negb;
  rewrite ?orb_false_r, ?orb_true_r, ?andb_true_l, ?andb_false_r,
    ?andb_true_r.

(** What [tourl] emits is decided by the flag bits of the account. *)
Lemma tourl_fields (a : Account) (u0 : Url) :
  url_host (mutt_account_tourl a u0) = Some (acct_host a)
  /\ url_user (mutt_account_tourl a u0)
     = (if has_flag (acct_flags a) MUTT_ACCT_USER
        then Some (acct_user a) else None)
  /\ url_pass (mutt_account_tourl a u0)
     = (if has_flag (acct_flags a) MUTT_ACCT_PASS
        then Some (acct_pass a) else None)
  /\ url_port (mutt_account_tourl a u0)
     = (if has_flag (acct_flags a) MUTT_ACCT_PORT then acct_port a else 0)
  /\ url_path (mutt_account_tourl a u0) = None.
Proof.
  unfold mutt_account_tourl, scheme_block.
  destruct (has_flag (acct_flags a) MUTT_ACCT_USER),
    (has_flag (acct_flags a) MUTT_ACCT_PASS),
    (has_flag (acct_flags a) MUTT_ACCT_PORT),
    (has_flag (acct_flags a) MUTT_ACCT_SSL),
    (acct_type a); simpl; repeat split.
Qed.

(** The scheme table: four protocols, plain and secure. *)
Lemma tourl_scheme (a : Account) (u0 : Url) :
  url_scheme (mutt_account_tourl a u0)
  = match acct_type a, has_flag (acct_flags a) MUTT_ACCT_SSL with
    | MUTT_ACCT_TYPE_NONE, _ => U_UNKNOWN
    | MUTT_ACCT_TYPE_IMAP, true => U_IMAPS
    | MUTT_ACCT_TYPE_IMAP, false => U_IMAP
    | MUTT_ACCT_TYPE_POP, true => U_POPS
    | MUTT_ACCT_TYPE_POP, false => U_POP
    | MUTT_ACCT_TYPE_SMTP, true => U_SMTPS
    | MUTT_ACCT_TYPE_SMTP, false => U_SMTP
    | MUTT_ACCT_TYPE_NNTP, true => U_NNTPS
    | MUTT_ACCT_TYPE_NNTP, false => U_NNTP
    end.
Proof.
  unfold mutt_account_tourl, scheme_block.
  destruct (has_flag (acct_flags a) MUTT_ACCT_USER),
    (has_flag (acct_flags a) MUTT_ACCT_PASS),
    (has_flag (acct_flags a) MUTT_ACCT_PORT),
    (has_flag (acct_flags a) MUTT_ACCT_SSL),
    (acct_type a); reflexivity.
Qed.

(** The account [fromurl] leaves behind, field by field. *)
Lemma fromurl_fields (sz : Sizes) (a0 : Account) (u : Url) (h : string) :
  url_host u = Some h ->
  let a := snd (mutt_account_fromurl sz a0 u) in
  fst (mutt_account_fromurl sz a0 u) = 0
  /\ acct_host a = mutt_str_strfcpy h (sizeof_host sz)
  /\ acct_user a = match url_user u with
                   | Some x => mutt_str_strfcpy x (sizeof_user sz)
                   | None => acct_user a0
                   end
  /\ acct_pass a = match url_pass u with
                   | Some x => mutt_str_strfcpy x (sizeof_pass sz)
                   | None => acct_pass a0
                   end
  /\ acct_port a = (if truthy (url_port u) then url_port u else acct_port a0)
  /\ acct_login a = acct_login a0
  /\ acct_type a = acct_type a0
  /\ has_flag (acct_flags a) MUTT_ACCT_USER
     = (nonnull (url_user u) || has_flag (acct_flags a0) MUTT_ACCT_USER)%bool
  /\ has_flag (acct_flags a) MUTT_ACCT_PASS
     = (nonnull (url_pass u) || has_flag (acct_flags a0) MUTT_ACCT_PASS)%bool
  /\ has_flag (acct_flags a) MUTT_ACCT_PORT
     = (truthy (url_port u) || has_flag (acct_flags a0) MUTT_ACCT_PORT)%bool.
Proof.
  intros Hh. unfold mutt_account_fromurl. rewrite Hh.
  destruct (url_user u) as [x |], (url_pass u) as [y |],
    (truthy (url_port u)); simpl; repeat split; flag_bits;
    simpl; rewrite ?orb_false_r, ?orb_true_r; reflexivity.
Qed.

(** C7, refuted as stated: a host that is present but empty is accepted. *)
Lemma fromurl_accepts_empty_host :
  url_host url_empty_host = Some ""
  /\ fst (mutt_account_fromurl sizes_usual (acct_zero MUTT_ACCT_TYPE_IMAP)
            url_empty_host) = 0
  /\ fst (mutt_account_fromurl sizes_usual (acct_zero MUTT_ACCT_TYPE_IMAP)
            url_empty_host) <> -1.
Proof. repeat split. discriminate. Qed.

(** C7, amended: [fromurl] fails exactly when the host of the URL is absent
    ([NULL]), and then leaves the account as it was.  With a host present,
    empty or not, it succeeds and the account's host is the copy of the
    URL's host: the host itself when it is shorter than the array, its first
    [sizeof host - 1] bytes otherwise. *)
Theorem fromurl_fails_iff_host_absent (sz : Sizes) (a0 : Account) (u : Url) :
  match url_host u with
  | None => mutt_account_fromurl sz a0 u = (-1, a0)
  | Some h =>
    fst (mutt_account_fromurl sz a0 u) = 0
    /\ acct_host (snd (mutt_account_fromurl sz a0 u))
       = (if (String.length h <? sizeof_host sz)%nat then h
          else substring 0 (sizeof_host sz - 1) h)
  end.
Proof.
  destruct (url_host u) as [h |] eqn:Hh.
  - destruct (fromurl_fields sz a0 u h Hh) as (Hrc & Hhost & _).
    split; [exact Hrc |]. rewrite Hhost.
    destruct (Nat.ltb_spec (String.length h) (sizeof_host sz)).
    + now apply strfcpy_short.
    + reflexivity.
  - unfold mutt_account_fromurl. now rewrite Hh.
Qed.

(** C4, refuted as stated: a host of 200 bytes comes back as its first 127
    bytes, and a user recorded before [fromurl] comes back although the URL
    has none. *)
Lemma fromurl_tourl_not_exact :
  (fst (mutt_account_fromurl sizes_usual (acct_zero MUTT_ACCT_TYPE_IMAP)
          url_long_host) = 0
   /\ url_host (mutt_account_tourl
                  (snd (mutt_account_fromurl sizes_usual
                          (acct_zero MUTT_ACCT_TYPE_IMAP) url_long_host))
                  url_long_host)
      = Some (repeat_char "a" 127)
   /\ url_host (mutt_account_tourl
                  (snd (mutt_account_fromurl sizes_usual
                          (acct_zero MUTT_ACCT_TYPE_IMAP) url_long_host))
                  url_long_host)
      <> url_host url_long_host)
  /\ (fst (mutt_account_fromurl sizes_usual imap_with_user url_host_only) = 0
      /\ has_flag (acct_flags
                     (snd (mutt_account_fromurl sizes_usual imap_with_user
                             url_host_only))) MUTT_ACCT_USER = true
      /\ url_user (mutt_account_tourl
                     (snd (mutt_account_fromurl sizes_usual imap_with_user
                             url_host_only)) url_host_only)
         = Some "alice"
      /\ url_user (mutt_account_tourl
                     (snd (mutt_account_fromurl sizes_usual imap_with_user
                             url_host_only)) url_host_only)
         <> url_user url_host_only).
Proof. repeat split; vm_compute; discriminate. Qed.

(** Whatever the size of the host array, some host does not come back. *)
Lemma fromurl_tourl_truncates (sz : Sizes) (a0 : Account) (u0 : Url) :
  (0 < sizeof_host sz)%nat ->
  let u := mkUrl U_UNKNOWN None None
                 (Some (repeat_char "a" (sizeof_host sz))) 0 None in
  url_host (mutt_account_tourl (snd (mutt_account_fromurl sz a0 u)) u0)
  <> url_host u.
Proof.
  intros Hsz u.
  destruct (tourl_fields (snd (mutt_account_fromurl sz a0 u)) u0) as (Hh & _).
  rewrite Hh.
  destruct (fromurl_fields sz a0 u _ eq_refl) as (_ & Hhost & _).
  rewrite Hhost. simpl url_host. intros E. injection E as E.
  pose proof (strfcpy_bounded (repeat_char "a" (sizeof_host sz))
                (sizeof_host sz) Hsz) as Hb.
  rewrite E in Hb.
  assert (Hlen : forall n, String.length (repeat_char "a" n) = n).
  { induction n; simpl; congruence. }
  rewrite Hlen in Hb. lia.
Qed.

Lemma strfcpy_stored (x : string) (n : nat) :
  mutt_str_strfcpy x n = stored x n.
Proof.
  unfold stored. destruct (Nat.ltb_spec (String.length x) n).
  - now apply strfcpy_short.
  - reflexivity.
Qed.

(** C4, amended: for every URL with a host, [fromurl] succeeds and [tourl]
    on the resulting account gives back each of host, user and pass that
    the URL has as the array holds it (the string itself when it is shorter
    than the array, cut to the array's capacity otherwise) and a non-zero
    port exactly; a field the URL lacks is absent from the produced URL
    (user/pass [NULL], port 0) when its flag bit was clear before [fromurl]
    and is the account's earlier value otherwise.  User and pass are present
    in the produced URL exactly when their flag bit is set, and the port is
    the account's when the PORT bit is set and 0 otherwise.  Hence, when the
    URL's host, user and pass fit the arrays and every field the URL lacks
    had its flag bit clear, host, user, pass and port are reproduced
    exactly. *)
Theorem fromurl_tourl_roundtrip
        (sz : Sizes) (a0 : Account) (u u0 : Url) (h : string) :
  url_host u = Some h ->
  let a := snd (mutt_account_fromurl sz a0 u) in
  let u' := mutt_account_tourl a u0 in
  (fst (mutt_account_fromurl sz a0 u) = 0
   /\ url_host u' = Some (stored h (sizeof_host sz))
   /\ url_user u'
      = match url_user u with
        | Some x => Some (stored x (sizeof_user sz))
        | None => if has_flag (acct_flags a0) MUTT_ACCT_USER
                  then Some (acct_user a0) else None
        end
   /\ url_pass u'
      = match url_pass u with
        | Some x => Some (stored x (sizeof_pass sz))
        | None => if has_flag (acct_flags a0) MUTT_ACCT_PASS
                  then Some (acct_pass a0) else None
        end
   /\ url_port u'
      = (if truthy (url_port u) then url_port u
         else if has_flag (acct_flags a0) MUTT_ACCT_PORT
              then acct_port a0 else 0)
   /\ nonnull (url_user u') = has_flag (acct_flags a) MUTT_ACCT_USER
   /\ nonnull (url_pass u') = has_flag (acct_flags a) MUTT_ACCT_PASS
   /\ url_port u'
      = (if has_flag (acct_flags a) MUTT_ACCT_PORT then acct_port a else 0))
  /\ (fits (url_host u) (sizeof_host sz) ->
      fits (url_user u) (sizeof_user sz) ->
      fits (url_pass u) (sizeof_pass sz) ->
      (nonnull (url_user u)
       || negb (has_flag (acct_flags a0) MUTT_ACCT_USER))%bool = true ->
      (nonnull (url_pass u)
       || negb (has_flag (acct_flags a0) MUTT_ACCT_PASS))%bool = true ->
      (truthy (url_port u)
       || negb (has_flag (acct_flags a0) MUTT_ACCT_PORT))%bool = true ->
      url_host u' = url_host u
      /\ url_user u' = url_user u
      /\ url_pass u' = url_pass u
      /\ url_port u' = url_port u
      /\ truthy (url_port u') = has_flag (acct_flags a) MUTT_ACCT_PORT).
Proof.
  intros Hh a u'.
  destruct (fromurl_fields sz a0 u h Hh)
    as (Hrc & Ehost & Euser & Epass & Eport & _ & _ & FU & FP & FO).
  fold a in Ehost, Euser, Epass, Eport, FU, FP, FO.
  destruct (tourl_fields a u0) as (Th & Tu & Tp & To & _).
  fold u' in Th, Tu, Tp, To.
  assert (Auser : url_user u'
                  = match url_user u with
                    | Some x => Some (stored x (sizeof_user sz))
                    | None => if has_flag (acct_flags a0) MUTT_ACCT_USER
                              then Some (acct_user a0) else None
                    end).
  { rewrite Tu, FU, Euser.
    destruct (url_user u) as [x |]; simpl;
      [now rewrite strfcpy_stored | reflexivity]. }
  assert (Apass : url_pass u'
                  = match url_pass u with
                    | Some x => Some (stored x (sizeof_pass sz))
                    | None => if has_flag (acct_flags a0) MUTT_ACCT_PASS
                              then Some (acct_pass a0) else None
                    end).
  { rewrite Tp, FP, Epass.
    destruct (url_pass u) as [x |]; simpl;
      [now rewrite strfcpy_stored | reflexivity]. }
  assert (Aport : url_port u'
                  = (if truthy (url_port u) then url_port u
                     else if has_flag (acct_flags a0) MUTT_ACCT_PORT
                          then acct_port a0 else 0)).
  { rewrite To, FO, Eport. destruct (truthy (url_port u)); reflexivity. }
  assert (Ahost : url_host u' = Some (stored h (sizeof_host sz))).
  { now rewrite Th, Ehost, strfcpy_stored. }
  split.
  - split; [exact Hrc |]. split; [exact Ahost |].
    split; [exact Auser |]. split; [exact Apass |]. split; [exact Aport |].
    split; [rewrite Tu; now destruct (has_flag (acct_flags a) MUTT_ACCT_USER)
           |].
    split; [rewrite Tp; now destruct (has_flag (acct_flags a) MUTT_ACCT_PASS)
           |].
    exact To.
  - intros Fh Fu Fp CU CP CO.
    rewrite Ahost, Auser, Apass, Aport, FO. rewrite Hh in Fh |- *.
    unfold fits, stored in *.
    apply Nat.ltb_lt in Fh. rewrite Fh.
    split; [reflexivity |].
    split.
    { destruct (url_user u) as [x |]; simpl in *.
      - apply Nat.ltb_lt in Fu. now rewrite Fu.
      - now destruct (has_flag (acct_flags a0) MUTT_ACCT_USER). }
    split.
    { destruct (url_pass u) as [x |]; simpl in *.
      - apply Nat.ltb_lt in Fp. now rewrite Fp.
      - now destruct (has_flag (acct_flags a0) MUTT_ACCT_PASS). }
    destruct (truthy (url_port u)) eqn:Et; simpl in *.
    + rewrite Et. now split.
    + destruct (has_flag (acct_flags a0) MUTT_ACCT_PORT); [discriminate |].
      unfold truthy in Et. apply negb_false_iff, Z.eqb_eq in Et.
      rewrite Et. now split.
Qed.

Lemma fromurl_tourl_roundtrip_witness :
  has_flag (acct_flags imap_with_user) MUTT_ACCT_USER = true
  /\ acct_user imap_with_user = "alice"
  /\ url_user (mutt_account_tourl
                 (snd (mutt_account_fromurl sizes_usual imap_with_user
                         url_full)) url_empty_host)
     = Some "bob"
  /\ url_user (mutt_account_tourl
                 (snd (mutt_account_fromurl sizes_usual imap_with_user
                         url_host_only)) url_empty_host)
     = Some "alice"
  /\ url_host (mutt_account_tourl
                 (snd (mutt_account_fromurl sizes_usual
                         (acct_zero MUTT_ACCT_TYPE_IMAP) url_long_host))
                 url_empty_host)
     = Some (repeat_char "a" 127).
Proof.
  split; [reflexivity |]. split; [reflexivity |].
  split; [| split].
  - refine (proj1 (proj2
      (proj2 (fromurl_tourl_roundtrip sizes_usual imap_with_user url_full
                url_empty_host "mail.example.com" eq_refl)
         _ _ _ eq_refl eq_refl eq_refl))); simpl; lia.
  - exact (proj1 (proj2 (proj2
      (proj1 (fromurl_tourl_roundtrip sizes_usual imap_with_user
                url_host_only url_empty_host "mail.example.com" eq_refl))))).
  - exact (proj1 (proj2
      (proj1 (fromurl_tourl_roundtrip sizes_usual
                (acct_zero MUTT_ACCT_TYPE_IMAP) url_long_host url_empty_host
                (repeat_char "a" 200) eq_refl)))).
Defined.

(* ===================================================================== *)
(** ** The credential resolver *)
(* ===================================================================== *)

Lemma flags_kept_refl (f : Z) : flags_kept f f.
Proof. intros n _ H. exact H. Qed.

Lemma flags_kept_trans (f g h : Z) :
  flags_kept f g -> flags_kept g h -> flags_kept f h.
Proof. intros H1 H2 n Hn H. apply H2, H1; assumption. Qed.

Lemma has_flag_or_same (f k : Z) :
  0 <= k < 8 -> has_flag (flags_or f (Z.shiftl 1 k)) (Z.shiftl 1 k) = true.
Proof.
  intros Hk. rewrite has_flag_bit, flags_or_bit by lia.
  rewrite Z.eqb_refl, orb_true_r.
  destruct (Z.ltb_spec k 8); [reflexivity | lia].
Qed.

Lemma flags_kept_or (f k : Z) :
  0 <= k -> flags_kept f (flags_or f (Z.shiftl 1 k)).
Proof.
  intros Hk n Hn H. rewrite flags_or_bit, H by lia.
  destruct (Z.ltb_spec n 8); [reflexivity | lia].
Qed.

(** Splits a run of the resolver along the branches of the code. *)
Ltac run_cases H :=
  repeat (cbv beta iota zeta in H;
          match type of H with
          | context [if ?b then _ else _] => destruct b eqn:?
          | context [match ?e with pair _ _ => _ end] => destruct e eqn:?
          | context [match ?e with Some _ => _ | None => _ end] =>
            destruct e eqn:?
          end);
  cbv beta iota zeta in H.

Section ResolverFacts.

Context {World : Type}.
Variable sv : Services World.
Variable cfg : Config.
Variable sz : Sizes.

(** [getuser] touches the user and the USER bit only, asks for nothing but
    a line of input, and on failure leaves the flags as they were. *)
Lemma getuser_spec (a : Account) (s : Sys World)
      (rc : Z) (a' : Account) (s' : Sys World) :
  mutt_account_getuser sv cfg sz a s = ((rc, a'), s') ->
  acct_login a' = acct_login a
  /\ acct_pass a' = acct_pass a
  /\ acct_host a' = acct_host a
  /\ acct_port a' = acct_port a
  /\ acct_type a' = acct_type a
  /\ (exists evs, trace s' = (trace s ++ evs)%list
                  /\ existsb is_spawn evs = false)
  /\ ((rc = 0
       /\ has_flag (acct_flags a') MUTT_ACCT_USER = true
       /\ (acct_flags a' = acct_flags a
           \/ acct_flags a' = flags_or (acct_flags a) MUTT_ACCT_USER))
      \/ (rc = -1
          /\ acct_flags a' = acct_flags a
          /\ has_flag (acct_flags a) MUTT_ACCT_USER = false)).
Proof.
  unfold mutt_account_getuser, getuser_done, bind, ret,
    mutt_get_field_unbuffered.
  intros H. run_cases H; inversion H; subst; clear H; simpl;
    (repeat (split; [reflexivity |]));
    (split;
     [ first [ exists []; split; [now rewrite app_nil_r | reflexivity]
             | eexists; split; [reflexivity | reflexivity] ]
     | ]).
  all: try (right; repeat split; reflexivity).
  all: left; split; [reflexivity |]; split;
    [ first [ assumption | flag_bits; reflexivity ]
    | first [ now left | now right ] ].
Qed.

Lemma login_from_user_spec (a : Account) (s : Sys World)
      (rc : Z) (a' : Account) (s' : Sys World) :
  has_flag (acct_flags a) MUTT_ACCT_LOGIN = false ->
  login_from_user sv cfg sz a s = ((rc, a'), s') ->
  acct_pass a' = acct_pass a
  /\ acct_host a' = acct_host a
  /\ acct_port a' = acct_port a
  /\ acct_type a' = acct_type a
  /\ (exists evs, trace s' = (trace s ++ evs)%list
                  /\ existsb is_spawn evs = false)
  /\ flags_kept (acct_flags a) (acct_flags a')
  /\ ((rc = 0 /\ has_flag (acct_flags a') MUTT_ACCT_LOGIN = true)
      \/ (rc = -1
          /\ acct_flags a' = acct_flags a
          /\ has_flag (acct_flags a) MUTT_ACCT_LOGIN = false)).
Proof.
  intros EL H. unfold login_from_user, bind in H.
  destruct (mutt_account_getuser sv cfg sz a s) as [[rc0 a2] s2] eqn:EU.
  apply getuser_spec in EU.
  destruct EU as (E1 & E2 & E3 & E4 & E5 & (evs & Etr & Esp) & Hrc).
  destruct (rc0 =? 0) eqn:Erc.
  - unfold ret in H. inversion H; subst; clear H. simpl.
    repeat (split; [assumption |]).
    split; [exists evs; now split |].
    split.
    + apply flags_kept_trans with (acct_flags a2).
      * destruct Hrc as [(_ & _ & [-> | ->]) | (_ & -> & _)];
          try apply flags_kept_refl.
        apply flags_kept_or. lia.
      * apply flags_kept_or. lia.
    + left. split; [reflexivity |]. apply has_flag_or_same. lia.
  - unfold mutt_debug, ret, log in H. inversion H; subst; clear H. simpl.
    repeat (split; [assumption |]).
    split.
    { exists (evs ++ [EvDebug 1 msg_no_user_info])%list. split.
      - rewrite Etr. now rewrite app_assoc.
      - rewrite existsb_app, Esp. reflexivity. }
    destruct Hrc as [(-> & _) | (-> & Ef & _)]; [discriminate |].
    rewrite Ef. split; [apply flags_kept_refl |].
    right. repeat split. exact EL.
Qed.

(** [getlogin] touches the login, the user and their two bits only, starts
    no process, keeps every flag bit that was set, and on failure leaves the
    flags as they were. *)
Lemma getlogin_spec (a : Account) (s : Sys World)
      (rc : Z) (a' : Account) (s' : Sys World) :
  mutt_account_getlogin sv cfg sz a s = ((rc, a'), s') ->
  acct_pass a' = acct_pass a
  /\ acct_host a' = acct_host a
  /\ acct_port a' = acct_port a
  /\ acct_type a' = acct_type a
  /\ (exists evs, trace s' = (trace s ++ evs)%list
                  /\ existsb is_spawn evs = false)
  /\ flags_kept (acct_flags a) (acct_flags a')
  /\ ((rc = 0 /\ has_flag (acct_flags a') MUTT_ACCT_LOGIN = true)
      \/ (rc = -1
          /\ acct_flags a' = acct_flags a
          /\ has_flag (acct_flags a) MUTT_ACCT_LOGIN = false)).
Proof.
  unfold mutt_account_getlogin. intros H.
  destruct (has_flag (acct_flags a) MUTT_ACCT_LOGIN) eqn:EL in H.
  { unfold ret in H. inversion H; subst; clear H.
    repeat (split; [reflexivity |]).
    split; [exists []; split; [now rewrite app_nil_r | reflexivity] |].
    split; [apply flags_kept_refl |]. left. now split. }
  destruct (type_eqb (acct_type a) MUTT_ACCT_TYPE_IMAP) eqn:ET;
    [destruct (ImapLogin cfg) as [l |] eqn:EI |].
  - cbn [acct_flags set_flags set_login] in H.
    change MUTT_ACCT_LOGIN with (Z.shiftl 1 2) in H.
    rewrite (has_flag_or_same (acct_flags a) 2) in H by lia.
    change (Z.shiftl 1 2) with MUTT_ACCT_LOGIN in H.
    unfold ret in H. simpl in H. inversion H; subst; clear H. simpl.
    repeat (split; [reflexivity |]).
    split; [exists []; split; [now rewrite app_nil_r | reflexivity] |].
    split; [apply flags_kept_or; lia |].
    left. split; [reflexivity |]. apply has_flag_or_same. lia.
  - rewrite ?EL in H. simpl negb in H. cbv iota in H.
    apply login_from_user_spec; [exact EL | exact H].
  - rewrite ?EL in H. simpl negb in H. cbv iota in H.
    apply login_from_user_spec; [exact EL | exact H].
Qed.

(** [getpass] touches the password and the PASS bit only, asks for nothing
    but a password, and on failure leaves the flags as they were. *)
Lemma getpass_spec (a : Account) (s : Sys World)
      (rc : Z) (a' : Account) (s' : Sys World) :
  mutt_account_getpass sv cfg sz a s = ((rc, a'), s') ->
  acct_user a' = acct_user a
  /\ acct_login a' = acct_login a
  /\ acct_host a' = acct_host a
  /\ acct_port a' = acct_port a
  /\ acct_type a' = acct_type a
  /\ (exists evs, trace s' = (trace s ++ evs)%list
                  /\ existsb is_spawn evs = false)
  /\ ((rc = 0
       /\ has_flag (acct_flags a') MUTT_ACCT_PASS = true
       /\ (acct_flags a' = acct_flags a
           \/ acct_flags a' = flags_or (acct_flags a) MUTT_ACCT_PASS))
      \/ (rc = -1
          /\ acct_flags a' = acct_flags a
          /\ has_flag (acct_flags a) MUTT_ACCT_PASS = false)).
Proof.
  unfold mutt_account_getpass, getpass_done, bind, ret, mutt_get_password.
  intros H. run_cases H; inversion H; subst; clear H; simpl;
    (repeat (split; [reflexivity |]));
    (split;
     [ first [ exists []; split; [now rewrite app_nil_r | reflexivity]
             | eexists; split; [reflexivity | reflexivity] ]
     | ]).
  all: try (right; repeat split; reflexivity).
  all: left; split; [reflexivity |]; split;
    [ first [ assumption | flag_bits; reflexivity ]
    | first [ now left | now right ] ].
Qed.

(** The [if / else if] chain selects the variable of the account's
    protocol. *)
Lemma refresh_cmd_configured (a : Account) :
  refresh_cmd cfg a = configured_refresh_cmd cfg (acct_type a).
Proof.
  unfold refresh_cmd, configured_refresh_cmd.
  destruct (acct_type a); simpl;
    destruct (ImapOauthRefreshCmd cfg), (PopOauthRefreshCmd cfg),
      (SmtpOauthRefreshCmd cfg); reflexivity.
Qed.

(** Every path of [getoauthbearer] leaves the account as [getlogin] left
    it. *)
Lemma getoauthbearer_account (a : Account) (s : Sys World)
      (r : option string) (a' : Account) (s' : Sys World) :
  mutt_account_getoauthbearer sv cfg sz a s = ((r, a'), s') ->
  exists rc s1,
    mutt_account_getlogin sv cfg sz a s = ((rc, a'), s1)
    /\ (truthy rc = true -> r = None /\ s' = s1).
Proof.
  unfold mutt_account_getoauthbearer, bind. intros H.
  destruct (mutt_account_getlogin sv cfg sz a s) as [[rc a1] s1] eqn:EL.
  exists rc, s1.
  destruct (truthy rc) eqn:Erc.
  - unfold ret in H. inversion H; subst. split; [reflexivity |]. now split.
  - assert (a' = a1).
    { unfold ret, mutt_error, mutt_perror, mutt_create_filter,
        mutt_file_read_line, mutt_file_fclose, mutt_wait_filter in H.
      run_cases H; inversion H; reflexivity. }
    subst a'. split; [reflexivity | discriminate].
Qed.

(** Without a refresh command the call stops at the diagnostic. *)
Lemma getoauthbearer_without_cmd (a : Account) (s : Sys World)
      (a1 : Account) (s1 : Sys World) :
  mutt_account_getlogin sv cfg sz a s = ((0, a1), s1) ->
  configured_refresh_cmd cfg (acct_type a) = None ->
  mutt_account_getoauthbearer sv cfg sz a s
  = ((None, a1), log (EvError msg_no_refresh_cmd) s1)
  /\ exists evs,
      trace (log (EvError msg_no_refresh_cmd) s1) = (trace s ++ evs)%list
      /\ existsb is_spawn evs = false.
Proof.
  intros HL Hcmd.
  pose proof (getlogin_spec a s 0 a1 s1 HL)
    as (_ & _ & _ & Et & (evs & Etr & Esp) & _).
  split.
  - unfold mutt_account_getoauthbearer, bind. rewrite HL. simpl truthy.
    cbv iota. rewrite refresh_cmd_configured, Et, Hcmd. reflexivity.
  - exists (evs ++ [EvError msg_no_refresh_cmd])%list. split.
    + simpl. rewrite Etr. now rewrite app_assoc.
    + rewrite existsb_app, Esp. reflexivity.
Qed.

End ResolverFacts.

(** C5: once [getuser], [getlogin] or [getpass] has succeeded, the same
    operation on the account it left returns success at once: the account
    and so the field are unchanged, nothing is asked of the outside (the
    trace and the world are as before), and the outcome is the same under
    every configuration, every array size and every collaborator. *)
Theorem resolve_idempotent {W W' : Type}
        (f : Field) (sv : Services W) (cfg : Config) (sz : Sizes)
        (a : Account) (s : Sys W) (a1 : Account) (s1 : Sys W) :
  resolve f sv cfg sz a s = ((0, a1), s1) ->
  forall (sv' : Services W') (cfg' : Config) (sz' : Sizes) (s' : Sys W'),
    resolve f sv' cfg' sz' a1 s' = ((0, a1), s').
Proof.
  intros H sv' cfg' sz' s'. destruct f; simpl in *.
  - apply getuser_spec in H.
    destruct H as (_ & _ & _ & _ & _ & _ & [(_ & Hf & _) | (Hrc & _)]);
      [| discriminate].
    unfold mutt_account_getuser. now rewrite Hf.
  - apply getlogin_spec in H.
    destruct H as (_ & _ & _ & _ & _ & _ & [(_ & Hf) | (Hrc & _)]);
      [| discriminate].
    unfold mutt_account_getlogin. now rewrite Hf.
  - apply getpass_spec in H.
    destruct H as (_ & _ & _ & _ & _ & _ & [(_ & Hf & _) | (Hrc & _)]);
      [| discriminate].
    unfold mutt_account_getpass. now rewrite Hf.
Qed.

Lemma resolve_idempotent_witness :
  resolve F_PASS sv_sample cfg_unset sizes_usual imap_993 sys0
  = ((0, imap_993_pass),
     mkSys tt [EvGetPassword "Password for @mail.example.com: "])
  /\ resolve F_PASS sv_cancel cfg_imap_oauth sizes_usual imap_993_pass sys0
     = ((0, imap_993_pass), sys0).
Proof.
  split; [reflexivity |].
  apply (resolve_idempotent F_PASS sv_sample cfg_unset sizes_usual imap_993
           sys0 imap_993_pass
           (mkSys tt [EvGetPassword "Password for @mail.example.com: "])).
  reflexivity.
Defined.

(** C6: [unsetpass] clears the PASS bit and nothing else: the stored
    password and every other field are as before, and so is every other bit
    of the [unsigned char] flag set.  The next [getpass] does not return at
    its flag test: it copies the protocol's configured password, or fails
    when prompts are not allowed, or asks for the password. *)
Theorem unsetpass_clears_PASS_only {W : Type}
        (sv : Services W) (cfg : Config) (sz : Sizes)
        (a : Account) (s : Sys W) :
  let a' := mutt_account_unsetpass a in
  acct_user a' = acct_user a
  /\ acct_login a' = acct_login a
  /\ acct_pass a' = acct_pass a
  /\ acct_host a' = acct_host a
  /\ acct_port a' = acct_port a
  /\ acct_type a' = acct_type a
  /\ (forall n, Z.testbit (acct_flags a') n
                = (Z.testbit (to_uchar (acct_flags a)) n && negb (n =? 3))%bool)
  /\ has_flag (acct_flags a') MUTT_ACCT_PASS = false
  /\ has_flag (acct_flags a') MUTT_ACCT_USER
     = has_flag (acct_flags a) MUTT_ACCT_USER
  /\ has_flag (acct_flags a') MUTT_ACCT_LOGIN
     = has_flag (acct_flags a) MUTT_ACCT_LOGIN
  /\ has_flag (acct_flags a') MUTT_ACCT_PORT
     = has_flag (acct_flags a) MUTT_ACCT_PORT
  /\ has_flag (acct_flags a') MUTT_ACCT_SSL
     = has_flag (acct_flags a) MUTT_ACCT_SSL
  /\ mutt_account_getpass sv cfg sz a' s
     = match configured_pass cfg (acct_type a) with
       | Some p =>
         ((0, set_flags (set_pass a' (mutt_str_strfcpy p (sizeof_pass sz)))
                        (flags_or (acct_flags a') MUTT_ACCT_PASS)), s)
       | None =>
         if OptNoCurses cfg then ((-1, a'), s)
         else
           let r := svc_get_password sv (pass_prompt a') "" (sizeof_pass sz)
                      (world s) in
           let a2 := set_pass a' (snd (fst r)) in
           (if truthy (fst (fst r)) then (-1, a2)
            else (0, set_flags a2 (flags_or (acct_flags a') MUTT_ACCT_PASS)),
            mkSys (snd r) (trace s ++ [EvGetPassword (pass_prompt a')])%list)
       end.
Proof.
  intros a'.
  assert (Hclear : has_flag (acct_flags a') MUTT_ACCT_PASS = false).
  { subst a'. unfold mutt_account_unsetpass. simpl. flag_bits. reflexivity. }
  repeat (split; [reflexivity |]).
  split.
  { intros n. subst a'. unfold mutt_account_unsetpass. simpl.
    destruct (Z.ltb_spec n 0) as [Hn | Hn].
    - now rewrite !Z.testbit_neg_r by lia.
    - unfold MUTT_ACCT_PASS.
      rewrite flags_and_not_bit, to_uchar_bit by lia.
      now rewrite andb_assoc. }
  split; [exact Hclear |].
  split; [subst a'; unfold mutt_account_unsetpass; simpl; flag_bits;
          reflexivity |].
  split; [subst a'; unfold mutt_account_unsetpass; simpl; flag_bits;
          reflexivity |].
  split; [subst a'; unfold mutt_account_unsetpass; simpl; flag_bits;
          reflexivity |].
  split; [subst a'; unfold mutt_account_unsetpass; simpl; flag_bits;
          reflexivity |].
  unfold mutt_account_getpass. rewrite Hclear.
  replace (acct_type a') with (acct_type a) by reflexivity.
  unfold configured_pass, getpass_done, bind, ret, mutt_get_password,
    pass_prompt.
  destruct (acct_type a); simpl;
    destruct (ImapPass cfg), (PopPass cfg), (SmtpPass cfg), (NntpPass cfg),
      (OptNoCurses cfg); simpl; try reflexivity.
  all: destruct (svc_get_password sv _ _ _ _) as [[rc buf] w]; simpl;
    destruct (truthy rc); reflexivity.
Qed.

(* ===================================================================== *)
(** ** The token builder *)
(* ===================================================================== *)

(** C8: when the login is resolved and the account's protocol has no refresh
    command configured, [getoauthbearer] returns [NULL] after the one
    diagnostic "No OAUTH refresh command defined"; the outside is as login
    resolution left it and no event of the call starts a process. *)
Theorem getoauthbearer_no_refresh_command {W : Type}
        (sv : Services W) (cfg : Config) (sz : Sizes)
        (a : Account) (s : Sys W) (a1 : Account) (s1 : Sys W) :
  mutt_account_getlogin sv cfg sz a s = ((0, a1), s1) ->
  configured_refresh_cmd cfg (acct_type a) = None ->
  mutt_account_getoauthbearer sv cfg sz a s
  = ((None, a1),
     mkSys (world s1) (trace s1 ++ [EvError msg_no_refresh_cmd])%list)
  /\ exists evs,
      (trace s1 ++ [EvError msg_no_refresh_cmd] = trace s ++ evs)%list
      /\ existsb is_spawn evs = false.
Proof.
  intros HL Hcmd.
  exact (getoauthbearer_without_cmd sv cfg sz a s a1 s1 HL Hcmd).
Qed.

Lemma getoauthbearer_no_refresh_command_witness :
  mutt_account_getoauthbearer sv_sample cfg_imap_login sizes_usual imap_993
    sys0
  = ((None, imap_993_login), mkSys tt [EvError msg_no_refresh_cmd]).
Proof.
  exact (proj1 (getoauthbearer_no_refresh_command sv_sample cfg_imap_login
                  sizes_usual imap_993 sys0 imap_993_login sys0
                  eq_refl eq_refl)).
Defined.

(** C10: for a news account whose login is resolved, [getoauthbearer]
    returns [NULL] with the diagnostic "No OAUTH refresh command defined"
    under every configuration: the chain that selects the command has no
    branch for the news protocol. *)
Theorem getoauthbearer_news_has_no_command {W : Type}
        (sv : Services W) (cfg : Config) (sz : Sizes)
        (a : Account) (s : Sys W) (a1 : Account) (s1 : Sys W) :
  acct_type a = MUTT_ACCT_TYPE_NNTP ->
  mutt_account_getlogin sv cfg sz a s = ((0, a1), s1) ->
  mutt_account_getoauthbearer sv cfg sz a s
  = ((None, a1),
     mkSys (world s1) (trace s1 ++ [EvError msg_no_refresh_cmd])%list).
Proof.
  intros Ht HL.
  apply (getoauthbearer_without_cmd sv cfg sz a s a1 s1 HL).
  rewrite Ht. reflexivity.
Qed.

Lemma getoauthbearer_news_has_no_command_witness :
  mutt_account_getoauthbearer sv_sample cfg_news sizes_usual news_119 sys0
  = ((None, news_119_login), mkSys tt [EvError msg_no_refresh_cmd]).
Proof.
  exact (getoauthbearer_news_has_no_command sv_sample cfg_news sizes_usual
           news_119 sys0 news_119_login sys0 eq_refl eq_refl).
Defined.

(** C9, refuted as stated: with the IMAP login configured and no refresh
    command, [getoauthbearer] fails and leaves the LOGIN bit set, which was
    clear before the call. *)
Lemma getoauthbearer_failure_keeps_login :
  fst (fst (mutt_account_getoauthbearer sv_sample cfg_imap_login sizes_usual
              imap_993 sys0)) = None
  /\ has_flag (acct_flags imap_993) MUTT_ACCT_LOGIN = false
  /\ has_flag
       (acct_flags
          (snd (fst (mutt_account_getoauthbearer sv_sample cfg_imap_login
                       sizes_usual imap_993 sys0)))) MUTT_ACCT_LOGIN
     = true.
Proof. repeat split. Qed.

(** C9, amended: a failing [getuser], [getlogin] or [getpass] leaves the
    flag set as it was, and the bit of the field it was to resolve is clear.
    A failing [getoauthbearer] keeps every flag bit that was set before it
    and leaves the account exactly as its login resolution left it: when the
    failure is that of login resolution the flag set is as it was and the
    LOGIN bit is clear; when it fails at a later step login resolution had
    succeeded and the LOGIN bit is set. *)
Theorem failure_keeps_flags {W : Type}
        (sv : Services W) (cfg : Config) (sz : Sizes) :
  (forall (f : Field) (a : Account) (s : Sys W)
          (rc : Z) (a' : Account) (s' : Sys W),
      resolve f sv cfg sz a s = ((rc, a'), s') ->
      rc <> 0 ->
      acct_flags a' = acct_flags a
      /\ has_flag (acct_flags a') (field_flag f) = false)
  /\ (forall (a : Account) (s : Sys W) (a' : Account) (s' : Sys W),
         mutt_account_getoauthbearer sv cfg sz a s = ((None, a'), s') ->
         flags_kept (acct_flags a) (acct_flags a')
         /\ exists (rc : Z) (s1 : Sys W),
             mutt_account_getlogin sv cfg sz a s = ((rc, a'), s1)
             /\ (rc <> 0 ->
                 acct_flags a' = acct_flags a
                 /\ has_flag (acct_flags a') MUTT_ACCT_LOGIN = false
                 /\ s' = s1)
             /\ (rc = 0 ->
                 has_flag (acct_flags a') MUTT_ACCT_LOGIN = true)).
Proof.
  split.
  - intros f a s rc a' s' H Hrc. destruct f; simpl in *.
    + apply getuser_spec in H.
      destruct H as (_ & _ & _ & _ & _ & _ & [(E & _) | (_ & Ef & Hc)]);
        [contradiction |].
      rewrite Ef. now split.
    + apply getlogin_spec in H.
      destruct H as (_ & _ & _ & _ & _ & _ & [(E & _) | (_ & Ef & Hc)]);
        [contradiction |].
      rewrite Ef. now split.
    + apply getpass_spec in H.
      destruct H as (_ & _ & _ & _ & _ & _ & [(E & _) | (_ & Ef & Hc)]);
        [contradiction |].
      rewrite Ef. now split.
  - intros a s a' s' H.
    apply getoauthbearer_account in H. destruct H as (rc & s1 & HL & Hfail).
    pose proof (getlogin_spec sv cfg sz a s rc a' s1 HL)
      as (_ & _ & _ & _ & _ & Hk & Hrc).
    split; [exact Hk |].
    exists rc, s1. split; [exact HL |]. split.
    + intros Hne.
      destruct Hrc as [(E & _) | (_ & Ef & Hc)]; [contradiction |].
      rewrite Ef. split; [reflexivity |]. split; [exact Hc |].
      apply Hfail. unfold truthy.
      destruct (Z.eqb_spec rc 0); [contradiction | reflexivity].
    + intros E0.
      destruct Hrc as [(_ & Hset) | (E & _)]; [exact Hset |].
      rewrite E in E0. discriminate.
Qed.

Lemma failure_keeps_flags_witness :
  (acct_flags (snd (fst (resolve F_PASS sv_cancel cfg_unset sizes_usual
                           imap_993 sys0)))
   = acct_flags imap_993
   /\ has_flag
        (acct_flags (snd (fst (resolve F_PASS sv_cancel cfg_unset sizes_usual
                                 imap_993 sys0)))) (field_flag F_PASS)
      = false)
  /\ fst (fst (mutt_account_getoauthbearer sv_sample cfg_imap_login
                 sizes_usual imap_993 sys0)) = None
  /\ has_flag (acct_flags imap_993) MUTT_ACCT_LOGIN = false
  /\ has_flag (acct_flags imap_993_login) MUTT_ACCT_LOGIN = true.
Proof.
  split; [| split; [reflexivity | split; [reflexivity |]]].
  - apply (proj1 (failure_keeps_flags sv_cancel cfg_unset sizes_usual)
             F_PASS imap_993 sys0 (-1) _
             (snd (resolve F_PASS sv_cancel cfg_unset sizes_usual imap_993
                     sys0))).
    + reflexivity.
    + discriminate.
  - destruct (proj2 (failure_keeps_flags sv_sample cfg_imap_login sizes_usual)
                imap_993 sys0 imap_993_login
                (mkSys tt [EvError msg_no_refresh_cmd]) eq_refl)
      as (_ & rc & s1 & HL & _ & Hset).
    apply Hset. vm_compute in HL. congruence.
Defined.

(** The encoder on the test vectors of RFC 4648, section 10. *)
Lemma b64_rfc4648_vectors :
  mutt_b64_encode "" 0 10 = ""
  /\ mutt_b64_encode "f" 1 11 = "Zg=="
  /\ mutt_b64_encode "fo" 2 12 = "Zm8="
  /\ mutt_b64_encode "foo" 3 14 = "Zm9v"
  /\ mutt_b64_encode "foob" 4 15 = "Zm9vYg=="
  /\ mutt_b64_encode "fooba" 5 16 = "Zm9vYmE="
  /\ mutt_b64_encode "foobar" 6 18 = "Zm9vYmFy".
Proof. repeat split. Qed.

Lemma b64_groups_length_aux (l : list nat) :
  String.length (b64_groups l) = (4 * ((List.length l + 2) / 3))%nat
  /\ (forall a,
         String.length (b64_groups (a :: l))
         = (4 * ((List.length (a :: l) + 2) / 3))%nat)
  /\ (forall a b,
         String.length (b64_groups (a :: b :: l))
         = (4 * ((List.length (a :: b :: l) + 2) / 3))%nat).
Proof.
  induction l as [| c l (IH0 & IH1 & IH2)].
  - repeat split; intros; reflexivity.
  - split; [apply IH1 |]. split; [intros a; apply IH2 |].
    intros a b.
    change (String.length (b64_groups (a :: b :: c :: l)))
      with (S (S (S (S (String.length (b64_groups l)))))).
    rewrite IH0. simpl List.length.
    replace (S (S (S (List.length l))) + 2)%nat
      with ((List.length l + 2) + 1 * 3)%nat by lia.
    rewrite Nat.div_add by lia. lia.
Qed.

(** Four digits for every group of three bytes, the last group padded. *)
Lemma b64_groups_length (l : list nat) :
  String.length (b64_groups l) = (4 * ((List.length l + 2) / 3))%nat.
Proof. apply b64_groups_length_aux. Qed.

Lemma bytes_of_length (s : string) : List.length (bytes_of s) = String.length s.
Proof.
  unfold bytes_of. rewrite length_map.
  induction s as [| c r IH]; simpl; congruence.
Qed.

(** The encoded text and its NUL fit the buffer [getoauthbearer] allocates:
    [strlen(oauthbearer) * 4 / 3 + 10] bytes. *)
Lemma b64_fits (s : string) :
  (String.length (mutt_b64_encode s (strlen s) (strlen s * 4 / 3 + 10)) + 1
   <= strlen s * 4 / 3 + 10)%nat.
Proof.
  unfold mutt_b64_encode, strlen.
  rewrite substring_all by lia.
  rewrite b64_groups_length, bytes_of_length.
  pose proof (Nat.div_mod_eq (String.length s + 2) 3) as H1.
  pose proof (Nat.mod_upper_bound (String.length s + 2) 3) as H2.
  pose proof (Nat.div_mod_eq (String.length s * 4) 3) as H3.
  pose proof (Nat.mod_upper_bound (String.length s * 4) 3) as H4.
  lia.
Qed.

Lemma length_append (s1 s2 : string) :
  String.length (s1 ++ s2) = (String.length s1 + String.length s2)%nat.
Proof. induction s1 as [| c r IH]; simpl; congruence. Qed.

(** [snprintf] stores the whole message: the 50 bytes of overhead cover the
    32 bytes of fixed text, the digits of the port and the NUL. *)
Lemma oauthbearer_string_whole (a : Account) (token : string) :
  (String.length (fmt_d (acct_port a)) <= 17)%nat ->
  oauthbearer_string a token
  = "n,a=" ++ acct_login a ++ "," ++ SOH
      ++ "host=" ++ acct_host a ++ SOH
      ++ "port=" ++ fmt_d (acct_port a) ++ SOH
      ++ "auth=Bearer " ++ token ++ SOH ++ SOH.
Proof.
  intros Hd. unfold oauthbearer_string, snprintf, strlen.
  apply substring_all.
  rewrite !length_append. simpl String.length. lia.
Qed.

(** C1: for an account whose resolved login is "bob", with host
    "mail.example.com" and port 993, and a refresh command whose one line of
    output is "tok123", [getoauthbearer] assembles exactly
    [n,a=bob,^Ahost=mail.example.com^Aport=993^Aauth=Bearer tok123^A^A] and
    returns exactly its base64 encoding, which holds no newline. *)
Theorem getoauthbearer_example {W : Type}
        (sv : Services W) (cfg : Config) (sz : Sizes)
        (a : Account) (s : Sys W) (a1 : Account) (s1 : Sys W)
        (cmd : string) (pid : Z) (fp : FILE) (w2 w3 : W) :
  mutt_account_getlogin sv cfg sz a s = ((0, a1), s1) ->
  acct_login a1 = "bob" ->
  acct_host a1 = "mail.example.com" ->
  acct_port a1 = 993 ->
  configured_refresh_cmd cfg (acct_type a1) = Some cmd ->
  svc_create_filter sv cmd (world s1) = ((pid, fp), w2) ->
  0 <= pid ->
  svc_file_read_line sv fp w2 = (Some "tok123", w3) ->
  oauthbearer_string a1 "tok123" = bearer_example
  /\ fst (fst (mutt_account_getoauthbearer sv cfg sz a s))
     = Some (b64_groups (bytes_of bearer_example))
  /\ b64_groups (bytes_of bearer_example) = bearer_example_b64
  /\ existsb (Ascii.eqb (ascii_of_nat 10))
             (list_ascii_of_string bearer_example_b64) = false.
Proof.
  intros HL Hlogin Hhost Hport Hcmd Hcf Hpid Hrl.
  assert (Hs : oauthbearer_string a1 "tok123" = bearer_example).
  { unfold oauthbearer_string. rewrite Hlogin, Hhost, Hport. reflexivity. }
  split; [exact Hs |].
  split; [| split; reflexivity].
  unfold mutt_account_getoauthbearer, bind. rewrite HL.
  change (truthy 0) with false. cbv beta iota zeta.
  rewrite refresh_cmd_configured, Hcmd.
  unfold mutt_create_filter. cbv beta iota zeta. rewrite Hcf. cbn [fst snd].
  destruct (Z.ltb_spec pid 0) as [Hneg | _]; [lia |].
  unfold mutt_file_read_line. cbv beta zeta. cbn [world]. rewrite Hrl.
  cbn [fst snd].
  unfold mutt_file_fclose, mutt_wait_filter, ret. cbv beta zeta.
  cbn [fst snd NONULL nonnull first_char_set negb orb].
  rewrite Hs. reflexivity.
Qed.

Lemma getoauthbearer_example_witness :
  fst (fst (mutt_account_getoauthbearer sv_sample cfg_imap_oauth sizes_usual
              imap_993 sys0))
  = Some bearer_example_b64.
Proof.
  pose proof (getoauthbearer_example sv_sample cfg_imap_oauth sizes_usual
                imap_993 sys0 imap_993_login sys0 "refresh-token" 7 3 tt tt
                eq_refl eq_refl eq_refl eq_refl eq_refl eq_refl
                ltac:(lia) eq_refl) as (_ & Hr & Hb & _).
  rewrite Hr, Hb. reflexivity.
Defined.

(* ===================================================================== *)
(** ** Further properties of the matcher *)
(* ===================================================================== *)

(** X1: every account matches itself, whatever its protocol, its flags and
    the configuration. *)
Theorem match_reflexive (cfg : Config) (a : Account) :
  mutt_account_match cfg a a = 1.
Proof.
  unfold mutt_account_match.
  rewrite type_eqb_refl. unfold mutt_str_strcasecmp.
  rewrite strcmp_refl, Z.eqb_refl. simpl negb. simpl truthy. cbv iota zeta.
  rewrite land_land_USER, strcmp_refl.
  destruct (has_flag (acct_flags a) MUTT_ACCT_USER),
    (type_eqb (acct_type a) MUTT_ACCT_TYPE_NNTP); reflexivity.
Qed.

Lemma b2z_one (b : bool) : Z.b2z b = 1 <-> b = true.
Proof. destruct b; simpl; split; intros H; congruence. Qed.

(** X2: when both accounts have a recorded user the configuration plays no
    part: they match exactly when the protocols are the same, the hosts
    are equal up to the case of ASCII letters, the ports are equal and the
    users are equal byte for byte. *)
Theorem match_both_users (cfg : Config) (a1 a2 : Account) :
  has_flag (acct_flags a1) MUTT_ACCT_USER = true ->
  has_flag (acct_flags a2) MUTT_ACCT_USER = true ->
  mutt_account_match cfg a1 a2 = 1
  <-> (acct_type a1 = acct_type a2
       /\ lowercase (acct_host a1) = lowercase (acct_host a2)
       /\ acct_port a1 = acct_port a2
       /\ acct_user a1 = acct_user a2).
Proof.
  intros H1 H2. unfold mutt_account_match.
  destruct (type_eqb (acct_type a1) (acct_type a2)) eqn:Et; simpl negb;
    cbv iota.
  2:{ split; [discriminate |]. intros (E & _).
      apply type_eqb_eq in E. congruence. }
  apply type_eqb_eq in Et.
  unfold mutt_str_strcasecmp.
  destruct (truthy (strcmp (lowercase (acct_host a1))
                      (lowercase (acct_host a2)))) eqn:Eh; cbv iota.
  { split; [discriminate |]. intros (_ & E & _).
    apply strcmp_zero_iff in E. unfold truthy in Eh. rewrite E in Eh.
    discriminate. }
  unfold truthy in Eh. apply negb_false_iff, Z.eqb_eq, strcmp_zero_iff in Eh.
  destruct (Z.eqb_spec (acct_port a1) (acct_port a2)) as [Ep | Ep];
    simpl negb; cbv iota zeta.
  2:{ split; [discriminate |]. intros (_ & _ & E & _). contradiction. }
  rewrite land_land_USER, H1, H2. simpl andb. cbv iota.
  rewrite b2z_one, Z.eqb_eq, strcmp_zero_iff. tauto.
Qed.

Lemma match_both_users_witness :
  mutt_account_match cfg_unset imap_full imap_lower = 1.
Proof.
  apply (match_both_users cfg_unset imap_full imap_lower);
    [reflexivity | reflexivity |].
  repeat split.
Defined.

(** An account without a recorded user against the same account with one,
    outside the news protocol. *)
Lemma match_one_recorded (cfg : Config) (a : Account) (u : string) (f : Z) :
  acct_type a <> MUTT_ACCT_TYPE_NNTP ->
  has_flag (acct_flags a) MUTT_ACCT_USER = false ->
  has_flag f MUTT_ACCT_USER = true ->
  mutt_account_match cfg a (set_flags (set_user a u) f)
  = Z.b2z (strcmp u (default_user cfg (acct_type a)) =? 0)
  /\ mutt_account_match cfg (set_flags (set_user a u) f) a
     = Z.b2z (strcmp u (default_user cfg (acct_type a)) =? 0).
Proof.
  intros Hn Ha Hf.
  assert (E : mutt_account_match cfg a (set_flags (set_user a u) f)
              = Z.b2z (strcmp u (default_user cfg (acct_type a)) =? 0)).
  { unfold mutt_account_match. simpl.
    rewrite type_eqb_refl. unfold mutt_str_strcasecmp.
    rewrite strcmp_refl, Z.eqb_refl. simpl negb. simpl truthy. cbv iota zeta.
    rewrite land_land_USER, Ha, Hf. simpl andb. cbv iota.
    unfold default_user.
    destruct (acct_type a); try (now elim Hn); simpl;
      destruct (ImapUser cfg), (PopUser cfg); reflexivity. }
  split; [exact E |].
  rewrite <- E. symmetry. apply match_sym_not_news. exact Hn.
Qed.

(** X3: outside the news protocol, an account without a recorded user
    stands for the default user of its protocol: against the same account
    with a user recorded it matches, in either order, exactly when that
    user is the protocol's user variable or, when that is unset (and always
    for SMTP), the login name of the process. *)
Theorem match_default_user (cfg : Config) (a : Account) (u : string) (f : Z) :
  acct_type a <> MUTT_ACCT_TYPE_NNTP ->
  has_flag (acct_flags a) MUTT_ACCT_USER = false ->
  has_flag f MUTT_ACCT_USER = true ->
  mutt_account_match cfg a (set_flags (set_user a u) f)
  = Z.b2z (strcmp u (default_user cfg (acct_type a)) =? 0)
  /\ mutt_account_match cfg (set_flags (set_user a u) f) a
     = Z.b2z (strcmp u (default_user cfg (acct_type a)) =? 0).
Proof.
  intros Hn Ha Hf. exact (match_one_recorded cfg a u f Hn Ha Hf).
Qed.

Lemma match_default_user_witness :
  mutt_account_match cfg_batch imap_port_unflagged
    (set_flags (set_user imap_port_unflagged "bob") MUTT_ACCT_USER) = 1
  /\ mutt_account_match cfg_batch imap_port_unflagged
       (set_flags (set_user imap_port_unflagged "eve") MUTT_ACCT_USER) = 0.
Proof.
  split.
  - apply (proj1 (match_default_user cfg_batch imap_port_unflagged "bob"
                    MUTT_ACCT_USER ltac:(discriminate) eq_refl eq_refl)).
  - apply (proj1 (match_default_user cfg_batch imap_port_unflagged "eve"
                    MUTT_ACCT_USER ltac:(discriminate) eq_refl eq_refl)).
Defined.

(* ===================================================================== *)
(** ** Further properties of the URL bridge *)
(* ===================================================================== *)

(** X4: [tourl] writes every field of the URL, so nothing of the URL
    passed in survives; the path is [NULL], and the scheme is read from the
    protocol and the SSL bit alone (a cleared protocol gives the unknown
    scheme). *)
Theorem tourl_overwrites_url (a : Account) (u1 u2 : Url) :
  mutt_account_tourl a u1 = mutt_account_tourl a u2
  /\ url_path (mutt_account_tourl a u1) = None
  /\ url_scheme (mutt_account_tourl a u1)
     = match acct_type a, has_flag (acct_flags a) MUTT_ACCT_SSL with
       | MUTT_ACCT_TYPE_NONE, _ => U_UNKNOWN
       | MUTT_ACCT_TYPE_IMAP, true => U_IMAPS
       | MUTT_ACCT_TYPE_IMAP, false => U_IMAP
       | MUTT_ACCT_TYPE_POP, true => U_POPS
       | MUTT_ACCT_TYPE_POP, false => U_POP
       | MUTT_ACCT_TYPE_SMTP, true => U_SMTPS
       | MUTT_ACCT_TYPE_SMTP, false => U_SMTP
       | MUTT_ACCT_TYPE_NNTP, true => U_NNTPS
       | MUTT_ACCT_TYPE_NNTP, false => U_NNTP
       end.
Proof.
  unfold mutt_account_tourl, scheme_block.
  destruct (has_flag (acct_flags a) MUTT_ACCT_USER),
    (has_flag (acct_flags a) MUTT_ACCT_PASS),
    (has_flag (acct_flags a) MUTT_ACCT_PORT),
    (has_flag (acct_flags a) MUTT_ACCT_SSL),
    (acct_type a); repeat split.
Qed.

(** X5: whether it fails or succeeds, [fromurl] leaves the login and the
    protocol alone, clears no flag bit and does not touch the LOGIN and SSL
    bits; a URL port of 0 counts as no port, so the account keeps its port
    number. *)
Theorem fromurl_frame (sz : Sizes) (a0 : Account) (u : Url) :
  let a := snd (mutt_account_fromurl sz a0 u) in
  acct_login a = acct_login a0
  /\ acct_type a = acct_type a0
  /\ flags_kept (acct_flags a0) (acct_flags a)
  /\ has_flag (acct_flags a) MUTT_ACCT_LOGIN
     = has_flag (acct_flags a0) MUTT_ACCT_LOGIN
  /\ has_flag (acct_flags a) MUTT_ACCT_SSL
     = has_flag (acct_flags a0) MUTT_ACCT_SSL
  /\ acct_port a
     = (if (nonnull (url_host u) && truthy (url_port u))%bool
        then url_port u else acct_port a0).
Proof.
  unfold mutt_account_fromurl.
  destruct (url_host u) as [h |]; simpl.
  2:{ repeat split. apply flags_kept_refl. }
  destruct (url_user u) as [x |], (url_pass u) as [y |],
    (truthy (url_port u)); simpl; repeat split;
    try (flag_bits; reflexivity);
    unfold MUTT_ACCT_USER, MUTT_ACCT_PASS, MUTT_ACCT_PORT;
    repeat first
      [ apply flags_kept_refl
      | eapply flags_kept_trans; [| apply flags_kept_or; lia] ].
Qed.

(** [flags |= mask] changes nothing when the bit is already set. *)
Lemma flags_or_same (f k : Z) :
  0 <= f < 256 -> 0 <= k ->
  has_flag f (Z.shiftl 1 k) = true -> flags_or f (Z.shiftl 1 k) = f.
Proof.
  intros Hf Hk Hb. rewrite has_flag_bit in Hb by lia.
  unfold flags_or, to_uchar.
  replace (Z.lor f (Z.shiftl 1 k)) with f.
  - apply Z.mod_small. lia.
  - apply Z.bits_inj'. intros n Hn.
    rewrite Z.lor_spec, testbit_one_shift by lia.
    destruct (Z.eqb_spec n k) as [-> | _].
    + now rewrite Hb.
    + now rewrite orb_false_r.
Qed.

Lemma set_fields_same (a : Account) :
  set_host a (acct_host a) = a
  /\ set_user a (acct_user a) = a
  /\ set_pass a (acct_pass a) = a
  /\ set_port a (acct_port a) = a
  /\ set_flags a (acct_flags a) = a.
Proof. destruct a; repeat split. Qed.

(** X6: the bridge taken from the account and back: for an account whose
    flag set is an [unsigned char] and whose host, user and pass fit their
    arrays, [fromurl] of the URL that [tourl] produces succeeds and leaves
    the account exactly as it was. *)
Theorem tourl_fromurl_identity (sz : Sizes) (a : Account) (u0 : Url) :
  account_fits sz a ->
  mutt_account_fromurl sz a (mutt_account_tourl a u0) = (0, a).
Proof.
  intros (Hf & Hh & Hu & Hp).
  destruct (set_fields_same a) as (Sh & Su & Sp & So & Sf).
  destruct (tourl_fields a u0) as (Eh & Eu & Ep & Eo & _).
  unfold mutt_account_fromurl. rewrite Eh, Eu, Ep, Eo.
  change MUTT_ACCT_USER with (Z.shiftl 1 1).
  change MUTT_ACCT_PASS with (Z.shiftl 1 3).
  change MUTT_ACCT_PORT with (Z.shiftl 1 0).
  destruct (has_flag (acct_flags a) (Z.shiftl 1 1)) eqn:FU,
    (has_flag (acct_flags a) (Z.shiftl 1 3)) eqn:FP,
    (has_flag (acct_flags a) (Z.shiftl 1 0)) eqn:FO;
    try destruct (truthy (acct_port a));
    cbv beta iota zeta;
    repeat first
      [ rewrite (strfcpy_short _ _ Hh), Sh
      | rewrite (strfcpy_short _ _ Hu), Su
      | rewrite (strfcpy_short _ _ Hp), Sp
      | rewrite So
      | rewrite (flags_or_same _ 1 Hf ltac:(lia) FU), Sf
      | rewrite (flags_or_same _ 3 Hf ltac:(lia) FP), Sf
      | rewrite (flags_or_same _ 0 Hf ltac:(lia) FO), Sf ];
    reflexivity.
Qed.

Lemma tourl_fromurl_identity_witness :
  mutt_account_fromurl sizes_usual imap_full
    (mutt_account_tourl imap_full url_empty_host)
  = (0, imap_full).
Proof.
  apply tourl_fromurl_identity.
  unfold account_fits. simpl. lia.
Defined.

(* ===================================================================== *)
(** ** Further properties of the credential resolver *)
(* ===================================================================== *)

Section ResolverMore.

Context {World : Type}.
Variable sv : Services World.
Variable cfg : Config.
Variable sz : Sizes.

(** The flag set [getlogin] leaves is one of three. *)
Lemma getlogin_flags_shape (a : Account) (s : Sys World)
      (rc : Z) (a' : Account) (s' : Sys World) :
  mutt_account_getlogin sv cfg sz a s = ((rc, a'), s') ->
  acct_flags a' = acct_flags a
  \/ acct_flags a' = flags_or (acct_flags a) MUTT_ACCT_LOGIN
  \/ acct_flags a'
     = flags_or (flags_or (acct_flags a) MUTT_ACCT_USER) MUTT_ACCT_LOGIN.
Proof.
  unfold mutt_account_getlogin. intros H.
  assert (Hfall : login_from_user sv cfg sz a s = ((rc, a'), s') ->
                  acct_flags a' = acct_flags a
                  \/ acct_flags a' = flags_or (acct_flags a) MUTT_ACCT_LOGIN
                  \/ acct_flags a'
                     = flags_or (flags_or (acct_flags a) MUTT_ACCT_USER)
                         MUTT_ACCT_LOGIN).
  { clear H. unfold login_from_user, bind. intros H.
    destruct (mutt_account_getuser sv cfg sz a s) as [[rc0 a2] s2] eqn:EU.
    apply getuser_spec in EU.
    destruct EU as (_ & _ & _ & _ & _ & _ & Hrc).
    destruct (rc0 =? 0) eqn:Erc.
    - unfold ret in H. inversion H; subst; clear H. simpl.
      destruct Hrc as [(_ & _ & [-> | ->]) | (_ & -> & _)]; auto.
    - unfold mutt_debug, ret, log in H. inversion H; subst; clear H.
      destruct Hrc as [(-> & _) | (_ & -> & _)]; [discriminate | now left]. }
  destruct (has_flag (acct_flags a) MUTT_ACCT_LOGIN) eqn:EL in H.
  { unfold ret in H. inversion H; subst. now left. }
  destruct (type_eqb (acct_type a) MUTT_ACCT_TYPE_IMAP) eqn:ET;
    [destruct (ImapLogin cfg) as [l |] eqn:EI |].
  - cbn [acct_flags set_flags set_login] in H.
    change MUTT_ACCT_LOGIN with (Z.shiftl 1 2) in H.
    rewrite (has_flag_or_same (acct_flags a) 2) in H by lia.
    unfold ret in H. simpl in H. inversion H; subst; clear H. simpl.
    right. now left.
  - rewrite ?EL in H. simpl negb in H. cbv iota in H. now apply Hfall.
  - rewrite ?EL in H. simpl negb in H. cbv iota in H. now apply Hfall.
Qed.

End ResolverMore.

Lemma no_new_events {W : Type} (s : Sys W) :
  exists evs, trace s = (trace s ++ evs)%list /\ existsb is_prompt evs = false.
Proof. exists []. split; [now rewrite app_nil_r | reflexivity]. Qed.

(** Without prompts [getuser] asks nothing of the outside. *)
Lemma getuser_batch {W : Type} (sv : Services W) (cfg : Config) (sz : Sizes)
      (a : Account) (s : Sys W) (r : Z * Account) (s' : Sys W) :
  OptNoCurses cfg = true ->
  mutt_account_getuser sv cfg sz a s = (r, s') -> s' = s.
Proof.
  intros Hnc H.
  unfold mutt_account_getuser, getuser_done, bind, ret in H.
  rewrite Hnc in H. run_cases H; inversion H; reflexivity.
Qed.

(** X7: when prompts are not allowed ([OptNoCurses]), [getuser], [getlogin]
    and [getpass] never wait for the user: whatever they return, the outside
    is untouched and no prompt is among the events of the call. *)
Theorem batch_mode_never_prompts {W : Type}
        (f : Field) (sv : Services W) (cfg : Config) (sz : Sizes)
        (a : Account) (s : Sys W) (rc : Z) (a' : Account) (s' : Sys W) :
  OptNoCurses cfg = true ->
  resolve f sv cfg sz a s = ((rc, a'), s') ->
  world s' = world s
  /\ exists evs, trace s' = (trace s ++ evs)%list
                 /\ existsb is_prompt evs = false.
Proof.
  intros Hnc H. destruct f; simpl in H.
  - apply (getuser_batch sv cfg sz a s _ s' Hnc) in H. subst s'.
    split; [reflexivity | apply no_new_events].
  - unfold mutt_account_getlogin in H.
    destruct (has_flag (acct_flags a) MUTT_ACCT_LOGIN) eqn:EL in H.
    { unfold ret in H. inversion H; subst.
      split; [reflexivity | apply no_new_events]. }
    assert (Hfall : forall b,
               login_from_user sv cfg sz b s = ((rc, a'), s') ->
               world s' = world s
               /\ exists evs, trace s' = (trace s ++ evs)%list
                              /\ existsb is_prompt evs = false).
    { clear H. intros b H. unfold login_from_user, bind in H.
      destruct (mutt_account_getuser sv cfg sz b s) as [[rc0 a2] s2] eqn:EU.
      apply (getuser_batch sv cfg sz b s _ s2 Hnc) in EU. subst s2.
      destruct (rc0 =? 0).
      - unfold ret in H. inversion H; subst.
        split; [reflexivity | apply no_new_events].
      - unfold mutt_debug, ret, log in H. inversion H; subst. simpl.
        split; [reflexivity |]. eexists. split; reflexivity. }
    destruct (type_eqb (acct_type a) MUTT_ACCT_TYPE_IMAP) eqn:ET;
      [destruct (ImapLogin cfg) as [l |] eqn:EI |].
    + cbn [acct_flags set_flags set_login] in H.
      change MUTT_ACCT_LOGIN with (Z.shiftl 1 2) in H.
      rewrite (has_flag_or_same (acct_flags a) 2) in H by lia.
      unfold ret in H. simpl in H. inversion H; subst.
      split; [reflexivity | apply no_new_events].
    + rewrite ?EL in H. simpl negb in H. cbv iota in H.
      exact (Hfall a H).
    + rewrite ?EL in H. simpl negb in H. cbv iota in H.
      exact (Hfall a H).
  - unfold mutt_account_getpass, getpass_done, bind, ret in H.
    rewrite Hnc in H. run_cases H; inversion H; subst;
      (split; [reflexivity | apply no_new_events]).
Qed.

Lemma batch_mode_never_prompts_witness :
  resolve F_LOGIN sv_sample cfg_batch sizes_usual smtp_25 sys0
  = ((-1, smtp_25), mkSys tt [EvDebug 1 msg_no_user_info])
  /\ world (mkSys tt [EvDebug 1 msg_no_user_info]) = world sys0.
Proof.
  split; [reflexivity |].
  apply (batch_mode_never_prompts F_LOGIN sv_sample cfg_batch sizes_usual
           smtp_25 sys0 (-1) smtp_25 (mkSys tt [EvDebug 1 msg_no_user_info])
           eq_refl eq_refl).
Defined.

(** [getuser] with the user variable of the protocol set. *)
Lemma getuser_configured {W : Type}
      (sv : Services W) (cfg : Config) (sz : Sizes)
      (a : Account) (s : Sys W) (u : string) :
  has_flag (acct_flags a) MUTT_ACCT_USER = false ->
  configured_user cfg (acct_type a) = Some u ->
  mutt_account_getuser sv cfg sz a s
  = ((0, set_flags (set_user a (mutt_str_strfcpy u (sizeof_user sz)))
                   (flags_or (acct_flags a) MUTT_ACCT_USER)), s).
Proof.
  intros HU Hc. unfold mutt_account_getuser, getuser_done, ret.
  rewrite HU. unfold configured_user in Hc.
  destruct (acct_type a); try discriminate; simpl; rewrite Hc; simpl;
    try reflexivity;
    destruct (ImapUser cfg), (PopUser cfg); reflexivity.
Qed.

(** X8: a user variable set for the account's protocol wins over prompting:
    with the USER bit clear, [getuser] succeeds at once with the bounded copy
    of the variable, sets the USER bit and asks nothing of the outside,
    whether prompts are allowed or not. *)
Theorem getuser_takes_configured_user {W : Type}
        (sv : Services W) (cfg : Config) (sz : Sizes)
        (a : Account) (s : Sys W) (u : string) :
  has_flag (acct_flags a) MUTT_ACCT_USER = false ->
  configured_user cfg (acct_type a) = Some u ->
  mutt_account_getuser sv cfg sz a s
  = ((0, set_flags (set_user a (mutt_str_strfcpy u (sizeof_user sz)))
                   (flags_or (acct_flags a) MUTT_ACCT_USER)), s).
Proof.
  intros HU Hc. exact (getuser_configured sv cfg sz a s u HU Hc).
Qed.

Lemma getuser_takes_configured_user_witness :
  mutt_account_getuser sv_cancel cfg_batch sizes_usual imap_993 sys0
  = ((0, mkAccount "bob" "" "" "mail.example.com" 993 MUTT_ACCT_TYPE_IMAP 3),
     sys0).
Proof.
  exact (getuser_takes_configured_user sv_cancel cfg_batch sizes_usual
           imap_993 sys0 "bob" eq_refl eq_refl).
Defined.



(** X10: where a successful [getlogin] takes the login from, starting with
    the LOGIN bit clear.  For an IMAP account with the IMAP login variable
    set, the login is the bounded copy of that variable, the LOGIN bit is
    set, nothing else of the account changes and the outside is untouched.
    In every other case [getuser] has succeeded on the account, and the
    result is the account [getuser] left with the bounded copy of its user
    as the login and the LOGIN bit set beside the USER bit. *)
Theorem getlogin_login_source {W : Type}
        (sv : Services W) (cfg : Config) (sz : Sizes)
        (a : Account) (s : Sys W) (a' : Account) (s' : Sys W) :
  has_flag (acct_flags a) MUTT_ACCT_LOGIN = false ->
  mutt_account_getlogin sv cfg sz a s = ((0, a'), s') ->
  match configured_login cfg (acct_type a) with
  | Some l =>
    a' = set_flags (set_login a (mutt_str_strfcpy l (sizeof_login sz)))
                   (flags_or (acct_flags a) MUTT_ACCT_LOGIN)
    /\ s' = s
  | None =>
    exists a2,
      mutt_account_getuser sv cfg sz a s = ((0, a2), s')
      /\ a' = set_flags
                (set_login a2
                   (mutt_str_strfcpy (acct_user a2) (sizeof_login sz)))
                (flags_or (acct_flags a2) MUTT_ACCT_LOGIN)
      /\ acct_login a' = mutt_str_strfcpy (acct_user a') (sizeof_login sz)
      /\ has_flag (acct_flags a') MUTT_ACCT_USER = true
      /\ has_flag (acct_flags a') MUTT_ACCT_LOGIN = true
  end.
Proof.
  intros EL H. unfold mutt_account_getlogin in H. rewrite EL in H.
  assert (Hfall : login_from_user sv cfg sz a s = ((0, a'), s') ->
                  exists a2,
                    mutt_account_getuser sv cfg sz a s = ((0, a2), s')
                    /\ a' = set_flags
                              (set_login a2
                                 (mutt_str_strfcpy (acct_user a2)
                                    (sizeof_login sz)))
                              (flags_or (acct_flags a2) MUTT_ACCT_LOGIN)
                    /\ acct_login a'
                       = mutt_str_strfcpy (acct_user a') (sizeof_login sz)
                    /\ has_flag (acct_flags a') MUTT_ACCT_USER = true
                    /\ has_flag (acct_flags a') MUTT_ACCT_LOGIN = true).
  { clear H. unfold login_from_user, bind. intros H.
    destruct (mutt_account_getuser sv cfg sz a s) as [[rc0 a2] s2] eqn:EU.
    pose proof (getuser_spec sv cfg sz a s rc0 a2 s2 EU)
      as (_ & _ & _ & _ & _ & _ & Hrc).
    destruct (Z.eqb_spec rc0 0) as [-> | Hne].
    - unfold ret in H. inversion H; subst; clear H.
      exists a2. split; [reflexivity |]. split; [reflexivity |].
      split; [reflexivity |]. simpl.
      destruct Hrc as [(_ & HU & _) | (E & _)]; [| discriminate].
      split.
      + rewrite has_flag_USER in HU |- *. unfold MUTT_ACCT_LOGIN.
        rewrite flags_or_bit, HU by lia. reflexivity.
      + apply (has_flag_or_same (acct_flags a2) 2). lia.
    - unfold mutt_debug, ret, log in H. inversion H. }
  unfold configured_login.
  destruct (acct_type a) eqn:Et; cbn [type_eqb] in H;
    try (rewrite ?EL in H; simpl negb in H; cbv iota in H;
         exact (Hfall H)).
  destruct (ImapLogin cfg) as [l |] eqn:EI.
  - cbn [acct_flags set_flags set_login] in H.
    change MUTT_ACCT_LOGIN with (Z.shiftl 1 2) in H.
    rewrite (has_flag_or_same (acct_flags a) 2) in H by lia.
    unfold ret in H. simpl in H. inversion H; subst; clear H.
    now split.
  - rewrite ?EL in H. simpl negb in H. cbv iota in H. exact (Hfall H).
Qed.

Lemma getlogin_login_source_witness :
  (imap_993_login
   = set_flags (set_login imap_993
                  (mutt_str_strfcpy "bob" (sizeof_login sizes_usual)))
               (flags_or (acct_flags imap_993) MUTT_ACCT_LOGIN)
   /\ sys0 = sys0)
  /\ (exists a2,
         mutt_account_getuser sv_sample cfg_news sizes_usual news_119 sys0
         = ((0, a2), sys0)
         /\ news_119_login
            = set_flags
                (set_login a2
                   (mutt_str_strfcpy (acct_user a2) (sizeof_login sizes_usual)))
                (flags_or (acct_flags a2) MUTT_ACCT_LOGIN)
         /\ acct_login news_119_login
            = mutt_str_strfcpy (acct_user news_119_login)
                (sizeof_login sizes_usual)
         /\ has_flag (acct_flags news_119_login) MUTT_ACCT_USER = true
         /\ has_flag (acct_flags news_119_login) MUTT_ACCT_LOGIN = true).
Proof.
  split.
  - exact (getlogin_login_source sv_sample cfg_imap_login sizes_usual imap_993
             sys0 imap_993_login sys0 eq_refl eq_refl).
  - exact (getlogin_login_source sv_sample cfg_news sizes_usual news_119 sys0
             news_119_login sys0 eq_refl eq_refl).
Defined.

(** X11: what the resolver leaves alone.  [getuser], [getlogin] and
    [getpass] never change the host, the port, the protocol or the PORT and
    SSL bits, and each writes no credential field and no credential bit but
    its own; [getlogin] may besides write the user and the USER bit, which
    it falls back on. *)
Theorem resolve_frame {W : Type}
        (f g : Field) (sv : Services W) (cfg : Config) (sz : Sizes)
        (a : Account) (s : Sys W) (rc : Z) (a' : Account) (s' : Sys W) :
  resolve f sv cfg sz a s = ((rc, a'), s') ->
  may_touch f g = false ->
  acct_host a' = acct_host a
  /\ acct_port a' = acct_port a
  /\ acct_type a' = acct_type a
  /\ has_flag (acct_flags a') MUTT_ACCT_PORT
     = has_flag (acct_flags a) MUTT_ACCT_PORT
  /\ has_flag (acct_flags a') MUTT_ACCT_SSL
     = has_flag (acct_flags a) MUTT_ACCT_SSL
  /\ field_value g a' = field_value g a
  /\ has_flag (acct_flags a') (field_flag g)
     = has_flag (acct_flags a) (field_flag g).
Proof.
  intros H Hg. destruct f; simpl in H.
  - apply getuser_spec in H.
    destruct H as (E1 & E2 & E3 & E4 & E5 & _ & Hrc).
    assert (Hf : acct_flags a' = acct_flags a
                 \/ acct_flags a' = flags_or (acct_flags a) MUTT_ACCT_USER).
    { destruct Hrc as [(_ & _ & Hf) | (_ & Hf & _)]; [exact Hf | now left]. }
    repeat (split; [first [ assumption
                          | destruct Hf as [-> | ->]; flag_bits; reflexivity ]
                   |]).
    destruct g; try discriminate Hg; simpl; (split; [assumption |]);
      destruct Hf as [-> | ->]; flag_bits; reflexivity.
  - pose proof (getlogin_flags_shape sv cfg sz a s rc a' s' H) as Hf.
    apply getlogin_spec in H.
    destruct H as (E2 & E3 & E4 & E5 & _).
    repeat (split; [first [ assumption
                          | destruct Hf as [-> | [-> | ->]]; flag_bits;
                            reflexivity ]
                   |]).
    destruct g; try discriminate Hg; simpl; (split; [assumption |]);
      destruct Hf as [-> | [-> | ->]]; flag_bits; reflexivity.
  - apply getpass_spec in H.
    destruct H as (E1 & E2 & E3 & E4 & E5 & _ & Hrc).
    assert (Hf : acct_flags a' = acct_flags a
                 \/ acct_flags a' = flags_or (acct_flags a) MUTT_ACCT_PASS).
    { destruct Hrc as [(_ & _ & Hf) | (_ & Hf & _)]; [exact Hf | now left]. }
    repeat (split; [first [ assumption
                          | destruct Hf as [-> | ->]; flag_bits; reflexivity ]
                   |]).
    destruct g; try discriminate Hg; simpl; (split; [assumption |]);
      destruct Hf as [-> | ->]; flag_bits; reflexivity.
Qed.

Lemma resolve_frame_witness :
  acct_pass (snd (fst (resolve F_LOGIN sv_sample cfg_news sizes_usual
                         news_119 sys0)))
  = acct_pass news_119
  /\ has_flag
       (acct_flags (snd (fst (resolve F_LOGIN sv_sample cfg_news sizes_usual
                                news_119 sys0)))) MUTT_ACCT_PASS
     = has_flag (acct_flags news_119) MUTT_ACCT_PASS.
Proof.
  pose proof (resolve_frame F_LOGIN F_PASS sv_sample cfg_news sizes_usual
                news_119 sys0 0 news_119_login sys0 eq_refl eq_refl)
    as (_ & _ & _ & _ & _ & Hv & Hb).
  split; [exact Hv | exact Hb].
Defined.

(* ===================================================================== *)
(** ** Further properties of the token builder *)
(* ===================================================================== *)

(** [getoauthbearer] once the login is resolved and a command is selected:
    what follows the start of the process. *)
Lemma getoauthbearer_after_login {W : Type}
      (sv : Services W) (cfg : Config) (sz : Sizes)
      (a : Account) (s : Sys W) (a1 : Account) (s1 : Sys W)
      (cmd : string) (pid : Z) (fp : FILE) (w2 : W) :
  mutt_account_getlogin sv cfg sz a s = ((0, a1), s1) ->
  configured_refresh_cmd cfg (acct_type a1) = Some cmd ->
  svc_create_filter sv cmd (world s1) = ((pid, fp), w2) ->
  mutt_account_getoauthbearer sv cfg sz a s
  = if pid <? 0
    then ((None, a1),
          mkSys w2 (trace s1 ++ [EvCreateFilter cmd;
                                 EvPerror msg_unable_to_run])%list)
    else
      let r := svc_file_read_line sv fp w2 in
      let w := svc_wait_filter sv pid (svc_file_fclose sv fp (snd r)) in
      let tr := (trace s1 ++ [EvCreateFilter cmd; EvReadLine fp; EvFclose fp;
                              EvWaitFilter pid])%list in
      if (negb (nonnull (fst r)) || negb (first_char_set (NONULL (fst r))))%bool
      then ((None, a1), mkSys w (tr ++ [EvError msg_empty_string])%list)
      else
        let oauthbearer := oauthbearer_string a1 (NONULL (fst r)) in
        ((Some (mutt_b64_encode oauthbearer (strlen oauthbearer)
                  (strlen oauthbearer * 4 / 3 + 10)), a1),
         mkSys w tr).
Proof.
  intros HL Hcmd Hcf.
  unfold mutt_account_getoauthbearer, bind. rewrite HL.
  change (truthy 0) with false. cbv beta iota zeta.
  rewrite refresh_cmd_configured, Hcmd.
  unfold mutt_create_filter. cbv beta iota zeta. rewrite Hcf. cbn [fst snd].
  destruct (pid <? 0).
  - unfold mutt_perror, ret, log. cbn [world trace].
    now rewrite <- app_assoc.
  - unfold mutt_file_read_line, mutt_file_fclose, mutt_wait_filter.
    cbv beta iota zeta. cbn [world trace fst snd].
    destruct (negb (nonnull (fst (svc_file_read_line sv fp w2)))
              || negb (first_char_set
                         (NONULL (fst (svc_file_read_line sv fp w2)))))%bool.
    + unfold mutt_error, ret, log. cbn [world trace].
      now rewrite <- !app_assoc.
    + unfold ret. now rewrite <- !app_assoc.
Qed.

(** X12: when the refresh command cannot be started (negative pid),
    [getoauthbearer] reports "Unable to run refresh command" and returns
    [NULL]; it reads no line, closes no stream and waits for no process. *)
Theorem getoauthbearer_spawn_failure {W : Type}
        (sv : Services W) (cfg : Config) (sz : Sizes)
        (a : Account) (s : Sys W) (a1 : Account) (s1 : Sys W)
        (cmd : string) (pid : Z) (fp : FILE) (w2 : W) :
  mutt_account_getlogin sv cfg sz a s = ((0, a1), s1) ->
  configured_refresh_cmd cfg (acct_type a1) = Some cmd ->
  svc_create_filter sv cmd (world s1) = ((pid, fp), w2) ->
  pid < 0 ->
  mutt_account_getoauthbearer sv cfg sz a s
  = ((None, a1),
     mkSys w2 (trace s1 ++ [EvCreateFilter cmd;
                            EvPerror msg_unable_to_run])%list).
Proof.
  intros HL Hcmd Hcf Hpid.
  rewrite (getoauthbearer_after_login sv cfg sz a s a1 s1 cmd pid fp w2
             HL Hcmd Hcf).
  destruct (Z.ltb_spec pid 0); [reflexivity | lia].
Qed.

Lemma getoauthbearer_spawn_failure_witness :
  mutt_account_getoauthbearer sv_no_spawn cfg_imap_oauth sizes_usual imap_993
    sys0
  = ((None, imap_993_login),
     mkSys tt [EvCreateFilter "refresh-token"; EvPerror msg_unable_to_run]).
Proof.
  exact (getoauthbearer_spawn_failure sv_no_spawn cfg_imap_oauth sizes_usual
           imap_993 sys0 imap_993_login sys0 "refresh-token" (-1) 0 tt
           eq_refl eq_refl eq_refl ltac:(lia)).
Defined.

(** X13: when the refresh command prints nothing or an empty line,
    [getoauthbearer] returns [NULL] with the diagnostic "Command returned
    empty string"; before that it has closed the stream and waited for the
    process. *)
Theorem getoauthbearer_empty_token {W : Type}
        (sv : Services W) (cfg : Config) (sz : Sizes)
        (a : Account) (s : Sys W) (a1 : Account) (s1 : Sys W)
        (cmd : string) (pid : Z) (fp : FILE) (w2 : W)
        (token : option string) (w3 : W) :
  mutt_account_getlogin sv cfg sz a s = ((0, a1), s1) ->
  configured_refresh_cmd cfg (acct_type a1) = Some cmd ->
  svc_create_filter sv cmd (world s1) = ((pid, fp), w2) ->
  0 <= pid ->
  svc_file_read_line sv fp w2 = (token, w3) ->
  token = None \/ token = Some "" ->
  mutt_account_getoauthbearer sv cfg sz a s
  = ((None, a1),
     mkSys (svc_wait_filter sv pid (svc_file_fclose sv fp w3))
           (trace s1 ++ [EvCreateFilter cmd; EvReadLine fp; EvFclose fp;
                         EvWaitFilter pid; EvError msg_empty_string])%list).
Proof.
  intros HL Hcmd Hcf Hpid Hrl Htok.
  rewrite (getoauthbearer_after_login sv cfg sz a s a1 s1 cmd pid fp w2
             HL Hcmd Hcf).
  destruct (Z.ltb_spec pid 0); [lia |].
  rewrite Hrl. cbv zeta. cbn [fst snd].
  destruct Htok as [-> | ->]; simpl; now rewrite <- app_assoc.
Qed.

Lemma getoauthbearer_empty_token_witness :
  mutt_account_getoauthbearer sv_blank_line cfg_imap_oauth sizes_usual
    imap_993 sys0
  = ((None, imap_993_login),
     mkSys tt [EvCreateFilter "refresh-token"; EvReadLine 3; EvFclose 3;
               EvWaitFilter 7; EvError msg_empty_string]).
Proof.
  exact (getoauthbearer_empty_token sv_blank_line cfg_imap_oauth sizes_usual
           imap_993 sys0 imap_993_login sys0 "refresh-token" 7 3 tt
           (Some "") tt eq_refl eq_refl eq_refl ltac:(lia) eq_refl
           (or_intror eq_refl)).
Defined.

Lemma ports_print_short_spec (n : nat) (p q : Z) :
  ports_print_short n p = true -> p <= q < p + Z.of_nat n ->
  (String.length (fmt_d q) <= 5)%nat.
Proof.
  revert p. induction n as [| m IH]; intros p H Hq; [lia |].
  simpl in H. apply andb_true_iff in H. destruct H as [H1 H2].
  destruct (Z.eq_dec q p) as [-> | Hne].
  - now apply Nat.leb_le.
  - apply (IH (p + 1)); [exact H2 | lia].
Qed.

Lemma ports_print_short_all : ports_print_short (Z.to_nat 65536) 0 = true.
Proof. vm_compute. reflexivity. Qed.

(** Every [unsigned short] prints in at most five digits. *)
Lemma port_digits (p : Z) :
  0 <= p < 65536 -> (String.length (fmt_d p) <= 5)%nat.
Proof.
  intros Hp.
  apply (ports_print_short_spec (Z.to_nat 65536) 0 p ports_print_short_all).
  rewrite Z2Nat.id by lia. lia.
Qed.

(** X14: the buffer of [getoauthbearer] never cuts the message.  For every
    login, host and non-empty token and every port an [unsigned short] can
    hold, a successful call returns the encoding of the whole initial
    response [n,a=LOGIN,^Ahost=HOST^Aport=PORT^Aauth=Bearer TOKEN^A^A], after
    reading one line, closing the stream and waiting for the process. *)
Theorem getoauthbearer_success {W : Type}
        (sv : Services W) (cfg : Config) (sz : Sizes)
        (a : Account) (s : Sys W) (a1 : Account) (s1 : Sys W)
        (cmd : string) (pid : Z) (fp : FILE) (w2 : W)
        (token : string) (w3 : W) :
  mutt_account_getlogin sv cfg sz a s = ((0, a1), s1) ->
  configured_refresh_cmd cfg (acct_type a1) = Some cmd ->
  svc_create_filter sv cmd (world s1) = ((pid, fp), w2) ->
  0 <= pid ->
  svc_file_read_line sv fp w2 = (Some token, w3) ->
  token <> "" ->
  0 <= acct_port a1 < 65536 ->
  let msg := bearer_message (acct_login a1) (acct_host a1) (acct_port a1)
               token in
  mutt_account_getoauthbearer sv cfg sz a s
  = ((Some (mutt_b64_encode msg (strlen msg) (strlen msg * 4 / 3 + 10)), a1),
     mkSys (svc_wait_filter sv pid (svc_file_fclose sv fp w3))
           (trace s1 ++ [EvCreateFilter cmd; EvReadLine fp; EvFclose fp;
                         EvWaitFilter pid])%list).
Proof.
  intros HL Hcmd Hcf Hpid Hrl Htok Hport msg.
  rewrite (getoauthbearer_after_login sv cfg sz a s a1 s1 cmd pid fp w2
             HL Hcmd Hcf).
  destruct (Z.ltb_spec pid 0); [lia |].
  rewrite Hrl. cbv zeta. cbn [fst snd NONULL nonnull negb orb].
  destruct token as [| c r]; [now elim Htok |]. cbn [first_char_set negb].
  rewrite oauthbearer_string_whole.
  - reflexivity.
  - pose proof (port_digits (acct_port a1) Hport). lia.
Qed.

Lemma getoauthbearer_success_witness :
  fst (fst (mutt_account_getoauthbearer sv_sample cfg_imap_oauth sizes_usual
              imap_993 sys0))
  = Some (mutt_b64_encode
            (bearer_message "bob" "mail.example.com" 993 "tok123") 60 90).
Proof.
  rewrite (getoauthbearer_success sv_sample cfg_imap_oauth sizes_usual
             imap_993 sys0 imap_993_login sys0 "refresh-token" 7 3 tt
             "tok123" tt eq_refl eq_refl eq_refl ltac:(lia) eq_refl
             ltac:(discriminate) ltac:(simpl; lia)).
  reflexivity.
Defined.

(** X15: [getoauthbearer] keeps nothing of its own in the account: however
    it ends, the account is the one login resolution left, so the password,
    the host, the port, the protocol and the PASS, PORT and SSL bits are as
    before the call. *)
Theorem getoauthbearer_frame {W : Type}
        (sv : Services W) (cfg : Config) (sz : Sizes)
        (a : Account) (s : Sys W)
        (r : option string) (a' : Account) (s' : Sys W) :
  mutt_account_getoauthbearer sv cfg sz a s = ((r, a'), s') ->
  (exists rc s1, mutt_account_getlogin sv cfg sz a s = ((rc, a'), s1))
  /\ acct_pass a' = acct_pass a
  /\ acct_host a' = acct_host a
  /\ acct_port a' = acct_port a
  /\ acct_type a' = acct_type a
  /\ has_flag (acct_flags a') MUTT_ACCT_PASS
     = has_flag (acct_flags a) MUTT_ACCT_PASS
  /\ has_flag (acct_flags a') MUTT_ACCT_PORT
     = has_flag (acct_flags a) MUTT_ACCT_PORT
  /\ has_flag (acct_flags a') MUTT_ACCT_SSL
     = has_flag (acct_flags a) MUTT_ACCT_SSL.
Proof.
  intros H.
  apply getoauthbearer_account in H. destruct H as (rc & s1 & HL & _).
  pose proof (getlogin_flags_shape sv cfg sz a s rc a' s1 HL) as Hf.
  pose proof (getlogin_spec sv cfg sz a s rc a' s1 HL)
    as (E1 & E2 & E3 & E4 & _).
  split; [exists rc, s1; exact HL |].
  repeat (split; [assumption |]).
  repeat split; destruct Hf as [-> | [-> | ->]]; flag_bits; reflexivity.
Qed.

Lemma getoauthbearer_frame_witness :
  acct_pass imap_993_login = acct_pass imap_993
  /\ has_flag (acct_flags imap_993_login) MUTT_ACCT_PASS
     = has_flag (acct_flags imap_993) MUTT_ACCT_PASS.
Proof.
  pose proof (getoauthbearer_frame sv_blank_line cfg_imap_oauth sizes_usual
                imap_993 sys0 None imap_993_login
                (mkSys tt [EvCreateFilter "refresh-token"; EvReadLine 3;
                           EvFclose 3; EvWaitFilter 7;
                           EvError msg_empty_string]) eq_refl)
    as (_ & Hp & _ & _ & _ & Hb & _).
  split; [exact Hp | exact Hb].
Defined.

(* ===================================================================== *)
(** ** The resolver and the matcher together *)
(* ===================================================================== *)

(** X16: resolving the user from the configuration does not change what an
    account matches.  Outside the news protocol, when the user variable of
    the protocol is set and fits the user array, the account [getuser]
    leaves matches the account it started from, in either order. *)
Theorem match_after_getuser {W : Type}
        (sv : Services W) (cfg : Config) (sz : Sizes)
        (a : Account) (s : Sys W) (u : string) :
  acct_type a <> MUTT_ACCT_TYPE_NNTP ->
  has_flag (acct_flags a) MUTT_ACCT_USER = false ->
  configured_user cfg (acct_type a) = Some u ->
  (String.length u < sizeof_user sz)%nat ->
  fst (fst (mutt_account_getuser sv cfg sz a s)) = 0
  /\ mutt_account_match cfg a
       (snd (fst (mutt_account_getuser sv cfg sz a s))) = 1
  /\ mutt_account_match cfg
       (snd (fst (mutt_account_getuser sv cfg sz a s))) a = 1.
Proof.
  intros Hn HU Hc Hlen.
  rewrite (getuser_configured sv cfg sz a s u HU Hc). cbn [fst snd].
  rewrite (strfcpy_short u _ Hlen).
  assert (Hset : has_flag (flags_or (acct_flags a) MUTT_ACCT_USER)
                   MUTT_ACCT_USER = true).
  { apply (has_flag_or_same (acct_flags a) 1). lia. }
  destruct (match_one_recorded cfg a u _ Hn HU Hset) as (M1 & M2).
  assert (Hd : default_user cfg (acct_type a) = u).
  { unfold default_user, configured_user in *.
    destruct (acct_type a); try discriminate; try (now elim Hn);
      now rewrite Hc. }
  rewrite M1, M2, Hd, strcmp_refl. repeat split.
Qed.

Lemma match_after_getuser_witness :
  mutt_account_match cfg_batch imap_993
    (snd (fst (mutt_account_getuser sv_cancel cfg_batch sizes_usual imap_993
                 sys0))) = 1.
Proof.
  apply (match_after_getuser sv_cancel cfg_batch sizes_usual imap_993 sys0
           "bob" ltac:(discriminate) eq_refl eq_refl ltac:(simpl; lia)).
Defined.
